(** * HLK-LD2410B 24GHz radar driver: protocol layer and analytics

    A shallow embedding of [radar_handler.py], [calibrate_radar.py] and the
    [MovingAverage] class of [engg_mode_demo_normed.py], together with the
    properties of the design specification that were checked against it.

    Conventions.
    - A Python [bytes] value is a [list byte].
    - A Python [int] is a [Z].
    - The serial port is an oracle: [serial_rx] lists what each successive
      blocking read returns (nothing left = the read times out with [b'']),
      [serial_tx] logs every frame handed to [serial.write].
    - A Python method is a computation in the monad [M S], which threads the
      object state and may raise; a raise keeps the mutations done so far.
    - [print], [input] and the debug output are not modelled. *)

From Stdlib Require Import ZArith List Bool Lia QArith.
From Stdlib Require Import Strings.Byte.
From Stdlib Require Strings.String Strings.Ascii Numbers.DecimalString.
From Stdlib Require Floats.SpecFloat.
Import ListNotations.
Local Open Scope Z_scope.

(** ** Python exceptions and the state-and-error monad *)

Inductive exn : Type :=
| OverflowError
| IndexError
| ZeroDivisionError.

Inductive result (A : Type) : Type :=
| Ok (a : A)
| Raise (e : exn).
Arguments Ok {A} a.
Arguments Raise {A} e.

Definition M (S A : Type) : Type := S -> result A * S.

Definition ret {S A} (a : A) : M S A := fun s => (Ok a, s).

Definition bind {S A B} (m : M S A) (k : A -> M S B) : M S B :=
  fun s => match m s with
           | (Ok a, s') => k a s'
           | (Raise e, s') => (Raise e, s')
           end.

Definition raise {S A} (e : exn) : M S A := fun s => (Raise e, s).
Definition get {S} : M S S := fun s => (Ok s, s).
Definition modify {S} (f : S -> S) : M S unit := fun s => (Ok tt, f s).

(** [try: m except Exception: h] *)
Definition try_except {S A} (m : M S A) (h : exn -> M S A) : M S A :=
  fun s => match m s with
           | (Ok a, s') => (Ok a, s')
           | (Raise e, s') => h e s'
           end.

(** A pure computation that may raise, run inside [M]. *)
Definition lift_result {S A} (r : result A) : M S A := fun s => (r, s).

Declare Scope py_scope.
Delimit Scope py_scope with py.
Notation "x <- m ;; k" := (bind m (fun x => k))
  (at level 61, m at next level, right associativity) : py_scope.
Notation "m ;; k" := (bind m (fun _ => k))
  (at level 61, right associativity) : py_scope.
Local Open Scope py_scope.

(** ** Bytes and integers *)

Definition bytes := list byte.

Definition byte_val (b : byte) : Z := Z.of_N (Byte.to_N b).

Definition byte_of_Z (z : Z) : byte :=
  match Byte.of_N (Z.to_N z) with
  | Some b => b
  | None => x00
  end.

(** [int.from_bytes(bs, byteorder='little')] *)
Fixpoint from_bytes_le (bs : bytes) : Z :=
  match bs with
  | [] => 0
  | b :: bs' => byte_val b + 256 * from_bytes_le bs'
  end.

(** [int.from_bytes(bs, byteorder='little', signed=True)] *)
Definition from_bytes_le_signed (bs : bytes) : Z :=
  let v := from_bytes_le bs in
  let bits := 8 * Z.of_nat (length bs) in
  if (bits =? 0) then 0
  else if (v <? 2 ^ (bits - 1)) then v else v - 2 ^ bits.

Fixpoint le_digits (n : nat) (x : Z) : bytes :=
  match n with
  | O => []
  | S n' => byte_of_Z (x mod 256) :: le_digits n' (x / 256)
  end.

(** [x.to_bytes(n, 'little')]: raises [OverflowError] on a negative [x] and
    on an [x] that does not fit in [n] bytes. *)
Definition to_bytes_le (n : nat) (x : Z) : result bytes :=
  if (0 <=? x) && (x <? 256 ^ Z.of_nat n) then Ok (le_digits n x)
  else Raise OverflowError.

(** [bs[i:j]] for non-negative [i], [j]. *)
Definition slice (i j : nat) (bs : bytes) : bytes :=
  skipn i (firstn j bs).

(** [bs[i]] for a non-negative [i]. *)
Definition index (bs : bytes) (i : nat) : result Z :=
  match nth_error bs i with
  | Some b => Ok (byte_val b)
  | None => Raise IndexError
  end.

Fixpoint is_prefix (p bs : bytes) : bool :=
  match p, bs with
  | [], _ => true
  | _ :: _, [] => false
  | a :: p', b :: bs' => Byte.eqb a b && is_prefix p' bs'
  end.

(** [needle in bs] on [bytes]: [needle] occurs as a contiguous run. *)
Fixpoint bytes_in (needle bs : bytes) : bool :=
  is_prefix needle bs ||
  match bs with
  | [] => false
  | _ :: bs' => bytes_in needle bs'
  end.

Definition bytes_eqb (a b : bytes) : bool :=
  (length a =? length b)%nat && is_prefix a b.

(** ** radar_handler.py: the data model *)

Inductive TargetState : Type :=
| NO_TARGET
| MOVING_TARGET
| STATIC_TARGET
| BOTH_TARGETS
| UNKNOWN.

Definition TargetState_eqb (a b : TargetState) : bool :=
  match a, b with
  | NO_TARGET, NO_TARGET
  | MOVING_TARGET, MOVING_TARGET
  | STATIC_TARGET, STATIC_TARGET
  | BOTH_TARGETS, BOTH_TARGETS
  | UNKNOWN, UNKNOWN => true
  | _, _ => false
  end.

Record EngineeringData : Type := mkEngineeringData {
  max_moving_distance_gate : Z;
  max_static_distance_gate : Z;
  moving_energy_gates : list Z;
  static_energy_gates : list Z
}.

Record RadarReading : Type := mkRadarReading {
  timestamp : Z;
  target_state : TargetState;
  moving_target_distance : Z;
  moving_target_energy : Z;
  static_target_distance : Z;
  static_target_energy : Z;
  detection_distance : Z;
  engineering_data : option EngineeringData
}.

Definition is_valid (r : RadarReading) : bool :=
  ((0 <=? detection_distance r) && (detection_distance r <=? 600)) &&
  ((-100 <=? moving_target_energy r) && (moving_target_energy r <=? 100)) &&
  ((-100 <=? static_target_energy r) && (static_target_energy r <=? 100)) &&
  negb (TargetState_eqb (target_state r) UNKNOWN).

(** ** radar_handler.py: class RadarHandler *)

Definition COMMAND_HEADER : bytes := [xfd; xfc; xfb; xfa].
Definition COMMAND_TAIL : bytes := [x04; x03; x02; x01].
Definition REPORT_HEADER : bytes := [xf4; xf3; xf2; xf1].
Definition REPORT_TAIL : bytes := [xf8; xf7; xf6; xf5].

(** The attributes of a [RadarHandler]. [self.serial] is the pair
    [serial_rx], [serial_tx]; [clock] is the time [time.time()] reads, in
    milliseconds. Only [time.sleep] advances it here: how long a blocking
    read takes, up to the timeout of the port, is not modelled, so no
    property below speaks of elapsed time. *)
Record RadarHandler : Type := mkRadarHandler {
  serial_rx : list bytes;
  serial_tx : list bytes;
  readings_buffer : list RadarReading;
  max_buffer_size : nat;
  engineering_mode : bool;
  clock : Z
}.

(** [RadarHandler.__init__], on a port whose reads will return [rx]. *)
Definition RadarHandler_init (rx : list bytes) (now : Z) : RadarHandler :=
  {| serial_rx := rx;
     serial_tx := [];
     readings_buffer := [];
     max_buffer_size := 1000;
     engineering_mode := false;
     clock := now |}.

Definition set_serial_rx (rx : list bytes) (h : RadarHandler) : RadarHandler :=
  {| serial_rx := rx;
     serial_tx := serial_tx h;
     readings_buffer := readings_buffer h;
     max_buffer_size := max_buffer_size h;
     engineering_mode := engineering_mode h;
     clock := clock h |}.

Definition set_serial_tx (tx : list bytes) (h : RadarHandler) : RadarHandler :=
  {| serial_rx := serial_rx h;
     serial_tx := tx;
     readings_buffer := readings_buffer h;
     max_buffer_size := max_buffer_size h;
     engineering_mode := engineering_mode h;
     clock := clock h |}.

Definition set_readings_buffer (b : list RadarReading) (h : RadarHandler)
  : RadarHandler :=
  {| serial_rx := serial_rx h;
     serial_tx := serial_tx h;
     readings_buffer := b;
     max_buffer_size := max_buffer_size h;
     engineering_mode := engineering_mode h;
     clock := clock h |}.

Definition set_engineering_mode (e : bool) (h : RadarHandler) : RadarHandler :=
  {| serial_rx := serial_rx h;
     serial_tx := serial_tx h;
     readings_buffer := readings_buffer h;
     max_buffer_size := max_buffer_size h;
     engineering_mode := e;
     clock := clock h |}.

Definition set_clock (t : Z) (h : RadarHandler) : RadarHandler :=
  {| serial_rx := serial_rx h;
     serial_tx := serial_tx h;
     readings_buffer := readings_buffer h;
     max_buffer_size := max_buffer_size h;
     engineering_mode := engineering_mode h;
     clock := t |}.

(** [self.serial.write(frame)] *)
Definition serial_write (frame : bytes) : M RadarHandler unit :=
  modify (fun h => set_serial_tx (serial_tx h ++ [frame]) h).

(** [self.serial.read_until(tail)]: the next answer of the port, [b''] when
    the read times out. *)
Definition serial_read_until : M RadarHandler bytes :=
  fun h => match serial_rx h with
           | [] => (Ok [], h)
           | r :: rx => (Ok r, set_serial_rx rx h)
           end.

(** [self.serial.reset_input_buffer()]: drops bytes received before the
    call; the answers in [serial_rx] are those read after it. *)
Definition serial_reset_input_buffer : M RadarHandler unit := ret tt.

(** [time.sleep(ms / 1000)] *)
Definition sleep (ms : Z) : M RadarHandler unit :=
  modify (fun h => set_clock (clock h + ms) h).

Definition send_command (command_word command_value : bytes)
  : M RadarHandler bytes :=
  let intra_frame_length :=
    Z.of_nat (length command_word + length command_value) in
  len <- lift_result (to_bytes_le 2 intra_frame_length) ;;
  let command :=
    COMMAND_HEADER ++ len ++ command_word ++ command_value ++ COMMAND_TAIL in
  serial_reset_input_buffer ;;
  sleep 100 ;;
  serial_write command ;;
  response <- serial_read_until ;;
  if (length response <? 12)%nat then ret [] else ret response.

Definition enable_configuration : M RadarHandler bool :=
  response <- send_command [xff; x00] [x01; x00] ;;
  if (length response <? 12)%nat then ret false
  else
    let status := from_bytes_le (slice 8 10 response) in
    ret (status =? 0).

Definition end_configuration : M RadarHandler bool :=
  response <- send_command [xfe; x00] [] ;;
  if (length response <? 12)%nat then ret false
  else
    let status := from_bytes_le (slice 8 10 response) in
    ret (status =? 0).

Definition enable_engineering_mode : M RadarHandler bool :=
  ok <- enable_configuration ;;
  if negb ok then ret false
  else
    response <- send_command [x62; x00] [] ;;
    if (length response <? 12)%nat then
      end_configuration ;;
      ret false
    else
      let status := from_bytes_le (slice 8 10 response) in
      (if status =? 0 then modify (set_engineering_mode true) else ret tt) ;;
      end_configuration ;;
      ret (status =? 0).

Definition disable_engineering_mode : M RadarHandler bool :=
  ok <- enable_configuration ;;
  if ok then
    len <- lift_result (to_bytes_le 2 2) ;;
    let command := COMMAND_HEADER ++ len ++ [x63; x00] ++ COMMAND_TAIL in
    serial_write command ;;
    response <- serial_read_until ;;
    let success := from_bytes_le (slice 8 10 response) =? 0 in
    (if success then modify (set_engineering_mode false) else ret tt) ;;
    end_configuration ;;
    ret success
  else ret false.

(** [TargetState(state_byte)], with [ValueError] mapped to [UNKNOWN]. *)
Definition _parse_target_state (state_byte : Z) : TargetState :=
  if state_byte =? 0 then NO_TARGET
  else if state_byte =? 1 then MOVING_TARGET
  else if state_byte =? 2 then STATIC_TARGET
  else if state_byte =? 3 then BOTH_TARGETS
  else UNKNOWN.

(** One gate loop of [read_frame]:
    [for i in range(n): if offset + i < len(eng_data): out.append(eng_data[offset + i])] *)
Definition collect_gates (eng_data : bytes) (offset n : nat) : list Z :=
  fold_left
    (fun out i =>
       if (offset + i <? length eng_data)%nat
       then out ++ [byte_val (nth (offset + i) eng_data x00)]
       else out)
    (seq 0 n) [].

(** The engineering block of [read_frame], on [eng_data = target_data[9:]]. *)
Definition parse_engineering (eng_data : bytes) : result EngineeringData :=
  match index eng_data 0 with
  | Raise e => Raise e
  | Ok max_moving_gate =>
    match index eng_data 1 with
    | Raise e => Raise e
    | Ok max_static_gate =>
      let offset := 2%nat in
      let moving_energies :=
        collect_gates eng_data offset (Z.to_nat (max_moving_gate + 1)) in
      let offset := (offset + Z.to_nat (max_moving_gate + 1))%nat in
      let static_energies :=
        collect_gates eng_data offset (Z.to_nat (max_static_gate + 1)) in
      Ok {| max_moving_distance_gate := max_moving_gate;
            max_static_distance_gate := max_static_gate;
            moving_energy_gates := moving_energies;
            static_energy_gates := static_energies |}
    end
  end.

(** The body of [read_frame] from the line it read to the [RadarReading] it
    builds; [None] stands for the early [return None]. *)
Definition decode_reading (eng_mode : bool) (now : Z) (serial_line : bytes)
  : result (option RadarReading) :=
  if negb (bytes_in REPORT_HEADER serial_line &&
           bytes_in REPORT_TAIL serial_line)
  then Ok None
  else
    let target_data := slice 8 (length serial_line - 6) serial_line in
    if (length target_data <? 9)%nat then Ok None
    else
      let basic_data := firstn 9 target_data in
      let engineering :=
        if eng_mode && (9 <? length target_data)%nat
        then match parse_engineering (skipn 9 target_data) with
             | Ok e => Ok (Some e)
             | Raise x => Raise x
             end
        else Ok None in
      match engineering with
      | Raise x => Raise x
      | Ok engineering_data =>
        match index basic_data 0 with
        | Raise x => Raise x
        | Ok state_byte =>
          Ok (Some
            {| timestamp := now;
               target_state := _parse_target_state state_byte;
               moving_target_distance :=
                 from_bytes_le_signed (slice 1 3 basic_data);
               moving_target_energy :=
                 from_bytes_le_signed (slice 3 4 basic_data);
               static_target_distance :=
                 from_bytes_le_signed (slice 4 6 basic_data);
               static_target_energy :=
                 from_bytes_le_signed (slice 6 7 basic_data);
               detection_distance :=
                 Z.abs (from_bytes_le_signed (slice 7 9 basic_data));
               engineering_data := engineering_data |})
        end
      end.

Definition read_frame : M RadarHandler (option RadarReading) :=
  try_except
    (serial_line <- serial_read_until ;;
     self <- get ;;
     decoded <- lift_result
       (decode_reading (engineering_mode self) (clock self) serial_line) ;;
     match decoded with
     | None => ret None
     | Some reading =>
       if is_valid reading then
         modify (fun h =>
           set_readings_buffer (readings_buffer h ++ [reading]) h) ;;
         self <- get ;;
         (if (max_buffer_size self <? length (readings_buffer self))%nat
          then modify (fun h =>
                 set_readings_buffer (tl (readings_buffer h)) h)
          else ret tt) ;;
         ret (Some reading)
       else ret None
     end)
    (fun _ => ret None).

(** ** calibrate_radar.py: class RadarCalibrator *)

Record RadarCalibrator : Type := mkRadarCalibrator {
  radar : RadarHandler;
  original_settings : option bytes
}.

Definition RadarCalibrator_init (rx : list bytes) (now : Z) : RadarCalibrator :=
  {| radar := RadarHandler_init rx now; original_settings := None |}.

(** A method call [self.radar.m(...)]. *)
Definition on_radar {A} (m : M RadarHandler A) : M RadarCalibrator A :=
  fun c => match m (radar c) with
           | (r, h) => (r, {| radar := h;
                              original_settings := original_settings c |})
           end.

Definition set_original_settings (s : bytes) : M RadarCalibrator unit :=
  modify (fun c => {| radar := radar c; original_settings := Some s |}).

(** [bool(self.original_settings)]: [None] and [b''] are falsy. *)
Definition truthy (s : option bytes) : bool :=
  match s with
  | None => false
  | Some [] => false
  | Some (_ :: _) => true
  end.

(** [len(response) >= 10 and response[8:10] == b'\x00\x00'] *)
Definition status_ok (response : bytes) : bool :=
  (10 <=? length response)%nat && bytes_eqb (slice 8 10 response) [x00; x00].

Definition backup_settings : M RadarCalibrator bool :=
  ok <- on_radar enable_configuration ;;
  if negb ok then ret false
  else
    response <- on_radar (send_command [x61; x00] []) ;;
    (if (30 <=? length response)%nat
     then set_original_settings
            (slice 8 (length response - 4) response)
     else ret tt) ;;
    on_radar end_configuration ;;
    self <- get ;;
    ret (truthy (original_settings self)).

Definition restore_factory_defaults : M RadarCalibrator bool :=
  ok <- on_radar enable_configuration ;;
  if negb ok then ret false
  else
    response <- on_radar (send_command [xa2; x00] []) ;;
    let success := status_ok response in
    (if success
     then on_radar (send_command [xa3; x00] []) ;; on_radar (sleep 2000)
     else ret tt) ;;
    on_radar end_configuration ;;
    ret success.

Definition configure_detection_gates (moving_gate static_gate : Z)
  : M RadarCalibrator bool :=
  if negb (((1 <=? moving_gate) && (moving_gate <=? 8)) &&
           ((1 <=? static_gate) && (static_gate <=? 8)))
  then ret false
  else
    ok <- on_radar enable_configuration ;;
    if negb ok then ret false
    else
      let command := [x60; x00] in
      mg <- lift_result (to_bytes_le 4 moving_gate) ;;
      sg <- lift_result (to_bytes_le 4 static_gate) ;;
      nm <- lift_result (to_bytes_le 4 5) ;;
      let value :=
        [x00; x00] ++ mg ++ [x01; x00] ++ sg ++ [x02; x00] ++ nm in
      response <- on_radar (send_command command value) ;;
      let success := status_ok response in
      on_radar end_configuration ;;
      ret success.

Definition configure_sensitivity (gate motion_sensitivity static_sensitivity : Z)
  : M RadarCalibrator bool :=
  if negb ((0 <=? gate) && (gate <=? 8)) then ret false
  else if negb (((0 <=? motion_sensitivity) && (motion_sensitivity <=? 100)) &&
                ((0 <=? static_sensitivity) && (static_sensitivity <=? 100)))
  then ret false
  else
    ok <- on_radar enable_configuration ;;
    if negb ok then ret false
    else
      let command := [x64; x00] in
      g <- lift_result (to_bytes_le 4 gate) ;;
      ms <- lift_result (to_bytes_le 4 motion_sensitivity) ;;
      ss <- lift_result (to_bytes_le 4 static_sensitivity) ;;
      let value :=
        [x00; x00] ++ g ++ [x01; x00] ++ ms ++ [x02; x00] ++ ss in
      response <- on_radar (send_command command value) ;;
      let success := status_ok response in
      on_radar end_configuration ;;
      ret success.

(** [range(start, stop, 5)] *)
Definition range_step5 (start stop : Z) : list Z :=
  map (fun k => start + 5 * Z.of_nat k)
      (seq 0 (Z.to_nat ((stop - start + 4) / 5))).

(** The sampling loop of [find_optimal_sensitivity]:
    [for _ in range(samples)], counting the valid readings whose state is
    not [NO_TARGET]. ([measurements] only feeds the printed report.) *)
Fixpoint count_detections (samples : nat) (detections : Z)
  : M RadarCalibrator Z :=
  match samples with
  | O => ret detections
  | S samples' =>
    reading <- on_radar read_frame ;;
    let detections :=
      match reading with
      | Some r =>
        if is_valid r && negb (TargetState_eqb (target_state r) NO_TARGET)
        then detections + 1 else detections
      | None => detections
      end in
    on_radar (sleep 100) ;;
    count_detections samples' detections
  end.

(** [detections / samples], Python's true division, as an exact rational. *)
Definition true_div (a b : Z) : result Q :=
  if b =? 0 then Raise ZeroDivisionError
  else Ok (inject_Z a / inject_Z b)%Q.

(** [a > b] on rates. *)
Definition Qgtb (a b : Q) : bool :=
  match (a ?= b)%Q with
  | Gt => true
  | _ => false
  end.

(** The body of the sweep loop up to [detection_rate]. *)
Definition measure_rate (samples sensitivity : Z) : M RadarCalibrator Q :=
  configure_sensitivity 255 sensitivity sensitivity ;;
  detections <- count_detections (Z.to_nat samples) 0 ;;
  lift_result (true_div detections samples).

(** The sweep loop, [best] being [(best_sensitivity, best_detection_rate)]. *)
Fixpoint sweep (samples : Z) (sensitivities : list Z) (best : Z * Q)
  : M RadarCalibrator (Z * Q) :=
  match sensitivities with
  | [] => ret best
  | sensitivity :: rest =>
    detection_rate <- measure_rate samples sensitivity ;;
    if Qgtb detection_rate (snd best)
    then sweep samples rest (sensitivity, detection_rate)
    else sweep samples rest best
  end.

(** [distance] only appears in the printed report. *)
Definition find_optimal_sensitivity
    (distance : Q) (min_sensitivity max_sensitivity samples : Z)
  : M RadarCalibrator (Z * Q) :=
  sweep samples (range_step5 min_sensitivity (max_sensitivity + 1)) (0, 0%Q).

(** ** engg_mode_demo_normed.py: class MovingAverage *)

(** The numbers of the Python runtime as [MovingAverage] uses them: the
    type of the samples, the [0] that [average] returns on an empty window,
    the built-in [sum(values)] and the true division [total / len(values)]
    by a length. *)
Class Numbers (number : Type) : Type := {
  py_zero : number;
  py_sum : list number -> number;
  py_div : number -> nat -> number
}.

(** [values] is the [deque(maxlen=size)], oldest sample first. *)
Record MovingAverage (number : Type) : Type := mkMovingAverage {
  size : nat;
  values : list number
}.
Arguments mkMovingAverage {number} size values.
Arguments size {number} m.
Arguments values {number} m.

Definition MovingAverage_init {number : Type} (size : nat)
  : MovingAverage number :=
  {| size := size; values := [] |}.

(** [deque.append] under [maxlen]: push right, then drop the leftmost
    element when the bound is exceeded. *)
Definition deque_append {A : Type} (maxlen : nat) (d : list A) (x : A)
  : list A :=
  let d' := d ++ [x] in
  if (maxlen <? length d')%nat then tl d' else d'.

Definition sum (xs : list Z) : Z := fold_left Z.add xs 0.

Definition average {number : Type} `{Numbers number}
    (m : MovingAverage number) : number :=
  match values m with
  | [] => py_zero
  | _ :: _ => py_div (py_sum (values m)) (length (values m))
  end.

Definition add {number : Type} `{Numbers number} (value : number)
  : M (MovingAverage number) number :=
  modify (fun m => {| size := size m;
                      values := deque_append (size m) (values m) value |}) ;;
  m <- get ;;
  ret (average m).

(** Python floats: IEEE 754 binary64, that is precision 53 and maximal
    exponent 1024, with round to nearest, ties to even. *)
Definition float : Type := SpecFloat.spec_float.

(** [float(z)]: the float nearest to the integer [z]. *)
Definition float_of_Z (z : Z) : float :=
  SpecFloat.binary_normalize 53 1024 z 0 false.

(** [x + y] and [x / y] on floats. *)
Definition float_add (x y : float) : float := SpecFloat.SFadd 53 1024 x y.
Definition float_div (x y : float) : float := SpecFloat.SFdiv 53 1024 x y.

(** The built-ins on floats: [sum] adds from the left starting at 0, and
    [total / n] divides by the float of the length [n]. *)
#[global] Instance float_numbers : Numbers float := {|
  py_zero := float_of_Z 0;
  py_sum := fun xs => fold_left float_add xs (float_of_Z 0);
  py_div := fun total n => float_div total (float_of_Z (Z.of_nat n))
|}.

(** ** Vocabulary of the properties *)

(** The last [n] elements of [l]. *)
Definition lastn {A} (n : nat) (l : list A) : list A :=
  skipn (length l - n) l.

(** The frame [send_command] puts on the wire. *)
Definition encode_command (command_word command_value : bytes) : bytes :=
  COMMAND_HEADER ++
  le_digits 2 (Z.of_nat (length command_word + length command_value)) ++
  command_word ++ command_value ++ COMMAND_TAIL.

(** What [send_command] makes of the answer of the port. *)
Definition checked_response (r : bytes) : bytes :=
  if (length r <? 12)%nat then [] else r.

(** The frame written by [end_configuration], and how often it was sent. *)
Definition END_CONFIGURATION_FRAME : bytes := encode_command [xfe; x00] [].

Definition closes (h : RadarHandler) : nat :=
  length (filter (bytes_eqb END_CONFIGURATION_FRAME) (serial_tx h)).

(** The operations that bracket their work in a configuration session. *)
Inductive operation : Type :=
| EnableEngineeringMode
| DisableEngineeringMode
| BackupSettings
| RestoreFactoryDefaults
| ConfigureDetectionGates (moving_gate static_gate : Z)
| ConfigureSensitivity (gate motion_sensitivity static_sensitivity : Z).

Definition run_operation (op : operation) : M RadarCalibrator bool :=
  match op with
  | EnableEngineeringMode => on_radar enable_engineering_mode
  | DisableEngineeringMode => on_radar disable_engineering_mode
  | BackupSettings => backup_settings
  | RestoreFactoryDefaults => restore_factory_defaults
  | ConfigureDetectionGates m s => configure_detection_gates m s
  | ConfigureSensitivity g m s => configure_sensitivity g m s
  end.

(** The argument check an operation makes before it opens a session. *)
Definition arguments_accepted (op : operation) : bool :=
  match op with
  | ConfigureDetectionGates m s =>
    ((1 <=? m) && (m <=? 8)) && ((1 <=? s) && (s <=? 8))
  | ConfigureSensitivity g m s =>
    ((0 <=? g) && (g <=? 8)) &&
    (((0 <=? m) && (m <=? 100)) && ((0 <=? s) && (s <=? 100)))
  | _ => true
  end.

(** The operation gets its session: its arguments pass and
    [enable_configuration] answers [True]. *)
Definition opens_session (op : operation) (c : RadarCalibrator) : bool :=
  arguments_accepted op &&
  match fst (enable_configuration (radar c)) with
  | Ok ok => ok
  | Raise _ => false
  end.

(** A client of the driver: any interleaving of frame reads and operations. *)
Inductive call : Type :=
| ReadFrame
| Operate (op : operation).

(** Runs the calls in order; returns the readings [read_frame] handed out. *)
Fixpoint run_calls (cs : list call) (c : RadarCalibrator)
  : list RadarReading * RadarCalibrator :=
  match cs with
  | [] => ([], c)
  | ReadFrame :: cs' =>
    match on_radar read_frame c with
    | (Ok (Some r), c') =>
      let '(rs, c'') := run_calls cs' c' in (r :: rs, c'')
    | (_, c') => run_calls cs' c'
    end
  | Operate op :: cs' => run_calls cs' (snd (run_operation op c))
  end.

(** What the next [read_frame] of [h] decodes, before the validity gate. *)
Definition next_decoded (h : RadarHandler) : result (option RadarReading) :=
  decode_reading (engineering_mode h) (clock h) (hd [] (serial_rx h)).

(** The rates the sweep measures, in order, as [(sensitivity, rate)]. *)
Fixpoint sweep_trace (samples : Z) (sensitivities : list Z)
  : M RadarCalibrator (list (Z * Q)) :=
  match sensitivities with
  | [] => ret []
  | sensitivity :: rest =>
    detection_rate <- measure_rate samples sensitivity ;;
    trace <- sweep_trace samples rest ;;
    ret ((sensitivity, detection_rate) :: trace)
  end.

(** [if detection_rate > best_detection_rate: best = (sensitivity, detection_rate)] *)
Definition strict_update (best p : Z * Q) : Z * Q :=
  if Qgtb (snd p) (snd best) then p else best.

(** Feeds the samples to a [MovingAverage]; returns what each [add] returned. *)
Fixpoint feed {number : Type} `{Numbers number}
    (xs : list number) (m : MovingAverage number)
  : list number * MovingAverage number :=
  match xs with
  | [] => ([], m)
  | x :: xs' =>
    match add x m with
    | (Ok a, m') => let '(avs, m'') := feed xs' m' in (a :: avs, m'')
    | (Raise _, m') => ([], m')
    end
  end.

(** The handler after one [send_command] that wrote [frame]. *)
Definition after_command (frame : bytes) (h : RadarHandler) : RadarHandler :=
  {| serial_rx := tl (serial_rx h);
     serial_tx := serial_tx h ++ [frame];
     readings_buffer := readings_buffer h;
     max_buffer_size := max_buffer_size h;
     engineering_mode := engineering_mode h;
     clock := clock h + 100 |}.

(** The answer [r] of the port is long enough and carries status zero. *)
Definition acknowledged (r : bytes) : bool :=
  negb (length r <? 12)%nat && (from_bytes_le (slice 8 10 r) =? 0).

(** The handler after one blocking read. *)
Definition after_read (h : RadarHandler) : RadarHandler :=
  match serial_rx h with
  | [] => h
  | _ :: rx => set_serial_rx rx h
  end.

(** The computation [m] leaves the part [proj] of the state as it was. *)
Definition stable {S T A} (proj : S -> T) (m : M S A) : Prop :=
  forall s, proj (snd (m s)) = proj s.

(** The history of a handler: its buffer and the capacity of the buffer. *)
Definition history (h : RadarHandler) : list RadarReading * nat :=
  (readings_buffer h, max_buffer_size h).

(** [best] is the first entry of [trace] with the greatest rate. *)
Definition first_maximum (best : Z * Q) (trace : list (Z * Q)) : Prop :=
  exists pre post,
    trace = pre ++ best :: post /\
    Forall (fun p => (snd p < snd best)%Q) pre /\
    Forall (fun p => (snd p <= snd best)%Q) post.

(** ** Test data *)

(** A command acknowledgement carrying [status] at offset 8. *)
Definition ack (command_word status : byte) : bytes :=
  COMMAND_HEADER ++ [x04; x00; command_word; x01; status; x00] ++ COMMAND_TAIL.

(** A report frame around [target_data]. *)
Definition report_frame (target_data : bytes) : bytes :=
  REPORT_HEADER ++ le_digits 2 (Z.of_nat (length target_data + 4)) ++
  [x02; xaa] ++ target_data ++ [x55; x00] ++ REPORT_TAIL.

(** Basic target data: a moving target at 100 cm, energy 50. *)
Definition moving_target_data : bytes :=
  [x01; x64; x00; x32; x00; x00; x00; x64; x00].

(** Basic target data: no target. *)
Definition no_target_data : bytes :=
  [x00; x00; x00; x00; x00; x00; x00; x00; x00].

(** Engineering data declaring [max_moving_gate = 2] and
    [max_static_gate = 1], followed by two energy bytes only. *)
Definition short_engineering_data : bytes := [x02; x01; x28; x1e].

Definition reading_of (state : TargetState) (dd me se : Z) : RadarReading :=
  {| timestamp := 0; target_state := state;
     moving_target_distance := 0; moving_target_energy := me;
     static_target_distance := 0; static_target_energy := se;
     detection_distance := dd; engineering_data := None |}.

(** A port that answers [samples] reads per tested sensitivity, [hits 50] of
    them detecting at sensitivity 50 and [hits s] elsewhere. *)
Definition responder_block (samples hits : nat) : list bytes :=
  repeat (report_frame moving_target_data) hits ++
  repeat (report_frame no_target_data) (samples - hits).

Definition synthetic_responder : list bytes :=
  flat_map (fun s => responder_block 30 (if s =? 50 then 24 else 12))
           (range_step5 0 101).

(** The port acknowledges entering configuration and enabling engineering
    mode, closes that session, acknowledges entering configuration again,
    and then stays silent. *)
Definition silent_after_enable : RadarHandler :=
  RadarHandler_init [ack xff x00; ack x62 x00; ack xfe x00; ack xff x00] 0.

(** A calibrator on a port that never answers. *)
Definition silent_calibrator : RadarCalibrator := RadarCalibrator_init [] 0.

(** A calibrator on a port that answers two reads per sensitivity: one
    detection for the first sensitivity, two for each of the next two. *)
Definition tie_calibrator : RadarCalibrator :=
  RadarCalibrator_init
    (responder_block 2 1 ++ responder_block 2 2 ++ responder_block 2 2) 0.

(** The rates the sweep measures on [silent_calibrator] over [10, 20] and
    on [tie_calibrator] over [0, 10], with two samples each. *)
Definition silent_trace : list (Z * Q) :=
  [(10, (0 # 2)%Q); (15, (0 # 2)%Q); (20, (0 # 2)%Q)].

Definition tie_trace : list (Z * Q) :=
  [(0, (1 # 2)%Q); (5, (2 # 2)%Q); (10, (2 # 2)%Q)].

(** A handler in engineering mode whose port holds one report frame that
    carries [short_engineering_data] after the basic data. *)
Definition short_engineering_handler : RadarHandler :=
  set_engineering_mode true
    (RadarHandler_init
       [report_frame (moving_target_data ++ short_engineering_data)] 0).

(** ** radar_handler.py: the analytics of RadarHandler *)

(** [l[-w:]]: the last [w] elements for a positive [w], all of [l] for
    [w = 0], and [l[k:]] for [w = -k]. *)
Definition tail_slice {A} (w : Z) (l : list A) : list A :=
  if 0 <? w then lastn (Z.to_nat w) l else skipn (Z.to_nat (- w)) l.

(** [np.mean(xs)] on integers, as an exact rational; [None] stands for the
    [nan] that numpy returns on an empty list. *)
Definition np_mean (xs : list Z) : option Q :=
  match xs with
  | [] => None
  | _ :: _ => Some (inject_Z (sum xs) / inject_Z (Z.of_nat (length xs)))%Q
  end.

Definition get_average_distance (window_size : Z) (h : RadarHandler)
  : option Q :=
  match readings_buffer h with
  | [] => Some 0%Q
  | _ :: _ =>
    let recent_readings := tail_slice window_size (readings_buffer h) in
    np_mean (map detection_distance recent_readings)
  end.

(** [state in states] *)
Definition state_in (state : TargetState) (states : list TargetState) : bool :=
  existsb (TargetState_eqb state) states.

Definition get_motion_status (window_size : Z) (h : RadarHandler)
  : bool * bool :=
  if Z.of_nat (length (readings_buffer h)) <? window_size then (false, false)
  else
    let recent_readings := tail_slice window_size (readings_buffer h) in
    let motion_detected :=
      existsb (fun r => state_in (target_state r)
                          [MOVING_TARGET; BOTH_TARGETS]) recent_readings in
    let static_detected :=
      existsb (fun r => state_in (target_state r)
                          [STATIC_TARGET; BOTH_TARGETS]) recent_readings in
    (motion_detected, static_detected).

(** ** radar_visualizer.py: RadarVisualizer.find_peak_motion *)

Definition MOTION_THRESHOLD : Z := 30.

(** [max(xs)]; [None] stands for the [ValueError] on an empty list. *)
Definition py_max (xs : list Z) : option Z :=
  match xs with
  | [] => None
  | x :: xs' => Some (fold_left Z.max xs' x)
  end.

(** [xs.index(v)]: the first position of [v]; [None] stands for the
    [ValueError] when [v] does not occur. *)
Fixpoint py_index (v : Z) (xs : list Z) : option nat :=
  match xs with
  | [] => None
  | x :: xs' =>
    if x =? v then Some O
    else match py_index v xs' with
         | Some i => Some (S i)
         | None => None
         end
  end.

(** The outer [None] is a raised [ValueError]; [Some None] is the returned
    [(None, None)]; the distance [index * 0.75] is exact. *)
Definition find_peak_motion (moving_data : list Z) : option (option (Q * Z)) :=
  match py_max moving_data with
  | None => None
  | Some max_energy =>
    if MOTION_THRESHOLD <? max_energy then
      match py_index max_energy moving_data with
      | None => None
      | Some i =>
        let distance := (inject_Z (Z.of_nat i) * (3 # 4))%Q in
        Some (Some (distance, max_energy))
      end
    else Some None
  end.

(** ** engg_mode_demo_normed.py: interpret_measurements *)

Module EnggModeDemo.
Import Ascii String.
Local Open Scope string_scope.

Definition MOVEMENT_THRESHOLD : Z := 30.
Definition STATIC_THRESHOLD : Z := 40.

(** [str(n)] *)
Definition str_int (n : Z) : string :=
  DecimalString.NilZero.string_of_int (Z.to_int n).

(** The tenths of [index * 0.75] as [:.1f] prints them: the product is
    exact in binary floating point, so the format rounds the exact value
    [15 * index / 2], half to even. *)
Definition tenths (index : nat) : Z :=
  let twice := 15 * Z.of_nat index in
  let q := twice / 2 in
  if Z.even twice then q else if Z.even q then q else q + 1.

(** [f"{index * 0.75:.1f}"] *)
Definition format_distance (index : nat) : string :=
  str_int (tenths index / 10) ++ "." ++ str_int (tenths index mod 10).

(** [[i for i, e in enumerate(energies) if e > threshold]] *)
Definition targets_above (threshold : Z) (energies : list Z) : list nat :=
  map fst (filter (fun p => (threshold <? snd p)%Z)
                  (combine (seq 0 (List.length energies)) energies)).

Definition newline : string := String (ascii_of_nat 10) EmptyString.

(** [None] stands for the [ValueError] that [max] raises on an empty
    list. *)
Definition interpret_measurements (moving_energies static_energies : list Z)
  : option string :=
  match py_max moving_energies with
  | None => None
  | Some moving_peak =>
  match py_max static_energies with
  | None => None
  | Some static_peak =>
  match py_index moving_peak moving_energies with
  | None => None
  | Some moving_index =>
  match py_index static_peak static_energies with
  | None => None
  | Some static_index =>
    let interpretation : list string := [] in
    let interpretation :=
      if (MOVEMENT_THRESHOLD <? moving_peak)%Z
      then (interpretation ++
            [("Movement detected at " ++ format_distance moving_index ++
              "m (strength: " ++ str_int moving_peak ++ "%)")%string])%list
      else interpretation in
    let interpretation :=
      if (STATIC_THRESHOLD <? static_peak)%Z
      then (interpretation ++
            [("Static presence at " ++ format_distance static_index ++
              "m (strength: " ++ str_int static_peak ++ "%)")%string])%list
      else interpretation in
    let moving_targets := targets_above MOVEMENT_THRESHOLD moving_energies in
    let static_targets := targets_above STATIC_THRESHOLD static_energies in
    let interpretation :=
      if (1 <? List.length moving_targets)%nat
      then (interpretation ++ ["Multiple moving targets detected"])%list
      else interpretation in
    let interpretation :=
      if (1 <? List.length static_targets)%nat
      then (interpretation ++ ["Multiple static targets detected"])%list
      else interpretation in
    Some match interpretation with
         | [] => "No significant targets detected"
         | _ :: _ => concat newline interpretation
         end
  end end end end.

End EnggModeDemo.

(** ** More vocabulary *)

(** The answer the port gives to the second command of an operation. *)
Definition second_answer (c : RadarCalibrator) : bytes :=
  hd [] (tl (serial_rx (radar c))).

(** The operations that send their command through [send_command] and
    report its status. *)
Definition reports_status (op : operation) : bool :=
  match op with
  | EnableEngineeringMode | RestoreFactoryDefaults
  | ConfigureDetectionGates _ _ | ConfigureSensitivity _ _ _ => true
  | DisableEngineeringMode | BackupSettings => false
  end.

(** The frames an operation wrote, oldest first. *)
Definition frames_written (before after : RadarCalibrator) : list bytes :=
  skipn (length (serial_tx (radar before))) (serial_tx (radar after)).

(** The frame written by [enable_configuration]. *)
Definition ENABLE_CONFIGURATION_FRAME : bytes :=
  encode_command [xff; x00] [x01; x00].

(** The command value both [configure_] methods build: three parameters,
    each a 2-byte parameter word (0, 1, 2) and a 4-byte value. *)
Definition parameter_block (a b c : Z) : bytes :=
  [x00; x00] ++ le_digits 4 a ++ [x01; x00] ++ le_digits 4 b ++
  [x02; x00] ++ le_digits 4 c.

(** A calibrator that holds the four-byte backup [settings] and whose port
    will give the answers [rx]. *)
Definition calibrator_with_backup (rx : list bytes) : RadarCalibrator :=
  {| radar := RadarHandler_init rx 0;
     original_settings := Some [x08; x08; x05; x00] |}.

(** An answer of 30 bytes whose status field is not zero. *)
Definition refused_parameters : bytes :=
  COMMAND_HEADER ++ [x16; x00; x61; x01; x01; x00] ++ repeat xaa 16 ++
  COMMAND_TAIL.

(** A handler whose port holds the single line [line], in or out of
    engineering mode. *)
Definition handler_reading (eng_mode : bool) (line : bytes) : RadarHandler :=
  set_engineering_mode eng_mode (RadarHandler_init [line] 0).

(** A report frame with one byte after the basic data, and one with the two
    gate-count bytes and no gate energy. *)
Definition one_extra_byte_frame : bytes :=
  report_frame (moving_target_data ++ [x08]).

Definition no_gate_frame : bytes :=
  report_frame (moving_target_data ++ [x08; x08]).

(** A handler whose buffer holds readings with the given states. *)
Definition handler_with_states (states : list TargetState) : RadarHandler :=
  set_readings_buffer (map (fun s => reading_of s 100 0 0) states)
    (RadarHandler_init [] 0).

(** * Properties *)

(** ** Validity of a reading *)

Lemma TargetState_eqb_eq (a b : TargetState) :
  TargetState_eqb a b = true <-> a = b.
Proof. destruct a, b; simpl; split; congruence. Qed.

(** C4. [is_valid] is false exactly when the detection distance leaves
    [0, 600], or one of the two energies leaves [-100, 100], or the state is
    [UNKNOWN]; it holds at the bounds 0, 600, -100 and 100 and fails at 601,
    -1, 101 and -101. *)
Theorem is_valid_false_iff :
  (forall r : RadarReading,
     is_valid r = false <->
     (detection_distance r < 0 \/ 600 < detection_distance r) \/
     (moving_target_energy r < -100 \/ 100 < moving_target_energy r) \/
     (static_target_energy r < -100 \/ 100 < static_target_energy r) \/
     target_state r = UNKNOWN) /\
  is_valid (reading_of MOVING_TARGET 0 (-100) 100) = true /\
  is_valid (reading_of NO_TARGET 600 100 (-100)) = true /\
  is_valid (reading_of MOVING_TARGET 601 0 0) = false /\
  is_valid (reading_of MOVING_TARGET (-1) 0 0) = false /\
  is_valid (reading_of MOVING_TARGET 0 101 0) = false /\
  is_valid (reading_of MOVING_TARGET 0 (-101) 0) = false /\
  is_valid (reading_of MOVING_TARGET 0 0 101) = false /\
  is_valid (reading_of MOVING_TARGET 0 0 (-101)) = false.
Proof.
  split; [| repeat split].
  intros r. unfold is_valid.
  rewrite !andb_false_iff, negb_false_iff, TargetState_eqb_eq.
  rewrite !Z.leb_gt. tauto.
Qed.

(** ** The command exchange *)

Lemma to_bytes_le_length n x bs : to_bytes_le n x = Ok bs -> length bs = n.
Proof.
  unfold to_bytes_le. destruct (_ && _); [| discriminate].
  intros [= <-]. revert x. induction n; simpl; auto.
Qed.

(** What one [send_command] does to the handler, when the length field fits. *)
Lemma send_command_run w v h :
  Z.of_nat (length w + length v) < 65536 ->
  send_command w v h =
  (Ok (checked_response (hd [] (serial_rx h))),
   after_command (encode_command w v) h).
Proof.
  intros Hlen. unfold send_command, bind, lift_result, to_bytes_le.
  replace ((0 <=? Z.of_nat (length w + length v)) &&
           (Z.of_nat (length w + length v) <? 256 ^ Z.of_nat 2)) with true.
  2:{ symmetry. apply andb_true_iff. split.
      - apply Z.leb_le. lia.
      - apply Z.ltb_lt. change (256 ^ Z.of_nat 2) with 65536. exact Hlen. }
  destruct h as [rx tx buf mbs em clk].
  unfold serial_reset_input_buffer, sleep, serial_write, serial_read_until,
    modify, ret, checked_response, encode_command, after_command.
  destruct rx as [| r rx]; simpl; [reflexivity |].
  destruct (length r <? 12)%nat; reflexivity.
Qed.

Lemma send_command_overflow w v h :
  65536 <= Z.of_nat (length w + length v) ->
  send_command w v h = (Raise OverflowError, h).
Proof.
  intros Hlen. unfold send_command, bind, lift_result, to_bytes_le.
  replace (Z.of_nat (length w + length v) <? 256 ^ Z.of_nat 2) with false.
  - rewrite andb_false_r. reflexivity.
  - symmetry. apply Z.ltb_ge. exact Hlen.
Qed.

Lemma checked_response_length r :
  checked_response r = [] \/ (12 <= length (checked_response r))%nat.
Proof.
  unfold checked_response.
  destruct (length r <? 12)%nat eqn:E; [left; reflexivity | right].
  apply Nat.ltb_ge in E. exact E.
Qed.

Lemma slice_8_10_length (r : bytes) :
  (12 <= length r)%nat -> length (slice 8 10 r) = 2%nat.
Proof.
  intros H. unfold slice. rewrite length_skipn, length_firstn. lia.
Qed.

(** C9. [send_command] never returns a non-empty response of fewer than 12
    bytes: it returns [b''] or at least 12 bytes, whose status field
    [response[8:10]] is then two bytes long; it raises only when the length
    of word and value does not fit the 16-bit length field. *)
Theorem send_command_response_length (w v : bytes) (h : RadarHandler) :
  match fst (send_command w v h) with
  | Ok response =>
    response = [] \/
    ((12 <= length response)%nat /\ length (slice 8 10 response) = 2%nat)
  | Raise _ => 65536 <= Z.of_nat (length w + length v)
  end.
Proof.
  destruct (Z_lt_le_dec (Z.of_nat (length w + length v)) 65536) as [Hlt | Hge].
  - rewrite send_command_run by exact Hlt. simpl.
    destruct (checked_response_length (hd [] (serial_rx h))) as [E | E].
    + left. exact E.
    + right. split; [exact E | apply slice_8_10_length; exact E].
  - rewrite send_command_overflow by exact Hge. simpl. exact Hge.
Qed.

Lemma acknowledged_checked r :
  (if (length (checked_response r) <? 12)%nat then false
   else from_bytes_le (slice 8 10 (checked_response r)) =? 0) = acknowledged r.
Proof.
  unfold checked_response, acknowledged.
  destruct (length r <? 12)%nat eqn:E; simpl; [reflexivity |].
  rewrite E. reflexivity.
Qed.

Lemma enable_configuration_run h :
  enable_configuration h =
  (Ok (acknowledged (hd [] (serial_rx h))),
   after_command (encode_command [xff; x00] [x01; x00]) h).
Proof.
  unfold enable_configuration, bind.
  rewrite send_command_run by (simpl; lia).
  rewrite <- acknowledged_checked.
  destruct (length (checked_response _) <? 12)%nat; reflexivity.
Qed.

Lemma end_configuration_run h :
  end_configuration h =
  (Ok (acknowledged (hd [] (serial_rx h))),
   after_command END_CONFIGURATION_FRAME h).
Proof.
  unfold end_configuration, bind.
  rewrite send_command_run by (simpl; lia).
  rewrite <- acknowledged_checked.
  destruct (length (checked_response _) <? 12)%nat; reflexivity.
Qed.

(** The gate check rejects the selector [0xFF] before anything is sent. *)
Lemma configure_sensitivity_255_run ms ss (c : RadarCalibrator) :
  configure_sensitivity 255 ms ss c = (Ok false, c).
Proof. reflexivity. Qed.

(** A gate in range with sensitivities in range does open the session. *)
Lemma configure_sensitivity_in_range_opens gate ms ss c :
  0 <= gate <= 8 -> 0 <= ms <= 100 -> 0 <= ss <= 100 ->
  exists tx,
    serial_tx (radar (snd (configure_sensitivity gate ms ss c))) =
    serial_tx (radar c) ++ encode_command [xff; x00] [x01; x00] :: tx.
Proof.
  intros Hg Hm Hs. unfold configure_sensitivity.
  replace ((0 <=? gate) && (gate <=? 8)) with true
    by (symmetry; apply andb_true_iff; split; apply Z.leb_le; lia).
  replace (((0 <=? ms) && (ms <=? 100)) && ((0 <=? ss) && (ss <=? 100)))
    with true
    by (symmetry; rewrite !andb_true_iff; repeat split; apply Z.leb_le; lia).
  cbn [negb]. unfold bind, on_radar.
  rewrite enable_configuration_run. cbn [radar].
  destruct (acknowledged _); cbn [negb].
  - unfold lift_result, to_bytes_le.
    replace ((0 <=? gate) && (gate <? 256 ^ Z.of_nat 4)) with true
      by (symmetry; apply andb_true_iff; split;
          [apply Z.leb_le | apply Z.ltb_lt]; simpl; lia).
    replace ((0 <=? ms) && (ms <? 256 ^ Z.of_nat 4)) with true
      by (symmetry; apply andb_true_iff; split;
          [apply Z.leb_le | apply Z.ltb_lt]; simpl; lia).
    replace ((0 <=? ss) && (ss <? 256 ^ Z.of_nat 4)) with true
      by (symmetry; apply andb_true_iff; split;
          [apply Z.leb_le | apply Z.ltb_lt]; simpl; lia).
    cbn [radar original_settings].
    rewrite send_command_run by (simpl; lia).
    rewrite end_configuration_run.
    unfold ret. cbn [snd radar after_command serial_tx].
    rewrite <- !app_assoc. eexists. reflexivity.
  - unfold ret. cbn [snd radar after_command serial_tx].
    exists []. reflexivity.
Qed.

(** The sibling path: [enable_engineering_mode] reports failure and leaves
    the flag alone when the answer to its command is shorter than 12 bytes. *)
Lemma enable_engineering_mode_short_response h r rx :
  serial_rx h = ack xff x00 :: r :: rx ->
  (length r < 12)%nat ->
  fst (enable_engineering_mode h) = Ok false /\
  engineering_mode (snd (enable_engineering_mode h)) = engineering_mode h.
Proof.
  intros Hrx Hr. unfold enable_engineering_mode, bind.
  rewrite enable_configuration_run, Hrx. cbn [hd negb].
  change (acknowledged (ack xff x00)) with true. cbn [negb].
  rewrite send_command_run by (simpl; lia).
  cbn [after_command serial_rx hd tl]. rewrite Hrx. cbn [tl hd].
  unfold checked_response.
  apply Nat.ltb_lt in Hr. rewrite Hr. cbn [length Nat.ltb Nat.leb].
  rewrite end_configuration_run. split; reflexivity.
Qed.

(** [disable_engineering_mode] skips that check: an answer too short to hold
    a status field reads as status zero. *)
Lemma disable_engineering_mode_short_response h r :
  acknowledged (hd [] (serial_rx h)) = true ->
  hd [] (tl (serial_rx h)) = r ->
  (length r <= 8)%nat ->
  fst (disable_engineering_mode h) = Ok true /\
  engineering_mode (snd (disable_engineering_mode h)) = false.
Proof.
  intros Hack Hr Hlen. unfold disable_engineering_mode, bind.
  rewrite enable_configuration_run, Hack.
  assert (Hslice : slice 8 10 r = []).
  { unfold slice. apply skipn_all2. rewrite length_firstn. lia. }
  assert (Hread : forall tx',
    serial_read_until
      (set_serial_tx tx' (after_command (encode_command [xff; x00] [x01; x00]) h))
    = (Ok r, set_serial_rx (tl (tl (serial_rx h)))
               (set_serial_tx tx'
                  (after_command (encode_command [xff; x00] [x01; x00]) h)))).
  { intros tx'. unfold serial_read_until. cbn [set_serial_tx serial_rx after_command].
    destruct (tl (serial_rx h)) as [| r1 rx] eqn:E; cbn [hd] in Hr; subst r.
    - destruct h as [rx0 tx0 buf mbs em clk]. cbn in E.
      unfold set_serial_rx, set_serial_tx, after_command. cbn.
      rewrite E. reflexivity.
    - reflexivity. }
  unfold lift_result, serial_write, modify.
  cbn [to_bytes_le Z.leb Z.ltb andb Z.of_nat Z.pow Z.compare Pos.of_succ_nat
       Pos.succ Z.pow_pos Pos.iter Z.mul Pos.mul Pos.add Pos.compare
       Pos.compare_cont].
  rewrite Hread, Hslice. cbn [from_bytes_le Z.eqb].
  rewrite end_configuration_run. split; reflexivity.
Qed.

(** C2. With engineering mode on, the port acknowledges the session and then
    times out on the disable command: [disable_engineering_mode] still
    returns [True] and clears the engineering-mode flag. *)
Theorem disable_engineering_mode_timeout_succeeds :
  let '(enabled, h1) := enable_engineering_mode silent_after_enable in
  let '(disabled, h2) := disable_engineering_mode h1 in
  enabled = Ok true /\
  engineering_mode h1 = true /\
  serial_rx h1 = [ack xff x00] /\
  disabled = Ok true /\
  engineering_mode h2 = false /\
  serial_rx h2 = [].
Proof. vm_compute. repeat split. Qed.

(** ** Configuration sessions *)

Lemma closes_after_command f h :
  closes (after_command f h) =
  (closes h + if bytes_eqb END_CONFIGURATION_FRAME f then 1 else 0)%nat.
Proof.
  unfold closes. cbn [after_command serial_tx].
  rewrite filter_app, length_app. cbn [filter].
  destruct (bytes_eqb END_CONFIGURATION_FRAME f); reflexivity.
Qed.

Lemma closes_set_engineering_mode b h :
  closes (set_engineering_mode b h) = closes h.
Proof. reflexivity. Qed.

Lemma closes_set_serial_rx rx h : closes (set_serial_rx rx h) = closes h.
Proof. reflexivity. Qed.

Lemma closes_set_clock t h : closes (set_clock t h) = closes h.
Proof. reflexivity. Qed.

Lemma closes_set_serial_tx f h :
  closes (set_serial_tx (serial_tx h ++ [f]) h) =
  (closes h + if bytes_eqb END_CONFIGURATION_FRAME f then 1 else 0)%nat.
Proof.
  unfold closes. cbn [set_serial_tx serial_tx].
  rewrite filter_app, length_app. cbn [filter].
  destruct (bytes_eqb END_CONFIGURATION_FRAME f); reflexivity.
Qed.

Create Rewrite HintDb closes_db.
#[local] Hint Rewrite closes_after_command closes_set_engineering_mode
  closes_set_serial_rx closes_set_clock closes_set_serial_tx : closes_db.

(** Counts the close frames of a written-out final state. *)
Ltac count_closes :=
  unfold ret, modify, sleep; cbn [snd fst radar];
  autorewrite with closes_db; cbn; lia.

Lemma opens_session_unfold op c :
  opens_session op c =
  arguments_accepted op && acknowledged (hd [] (serial_rx (radar c))).
Proof.
  unfold opens_session. rewrite enable_configuration_run. reflexivity.
Qed.

Lemma enable_engineering_mode_closes h :
  closes (snd (enable_engineering_mode h)) =
  (closes h + if acknowledged (hd [] (serial_rx h)) then 1 else 0)%nat.
Proof.
  unfold enable_engineering_mode, bind.
  rewrite enable_configuration_run.
  destruct (acknowledged _); cbn [negb]; [| count_closes].
  rewrite send_command_run by (simpl; lia).
  destruct (length _ <? 12)%nat.
  - rewrite end_configuration_run. count_closes.
  - destruct (_ =? 0); unfold modify, ret; rewrite end_configuration_run;
      count_closes.
Qed.

Lemma disable_engineering_mode_closes h :
  closes (snd (disable_engineering_mode h)) =
  (closes h + if acknowledged (hd [] (serial_rx h)) then 1 else 0)%nat.
Proof.
  unfold disable_engineering_mode, bind.
  rewrite enable_configuration_run.
  destruct (acknowledged _); [| count_closes].
  unfold lift_result, serial_write, serial_read_until, modify.
  cbn [to_bytes_le Z.leb Z.ltb andb Z.of_nat Z.pow Z.compare Pos.of_succ_nat
       Pos.succ Z.pow_pos Pos.iter Z.mul Pos.mul Pos.add Pos.compare
       Pos.compare_cont].
  cbn [set_serial_tx serial_rx after_command].
  destruct (tl (serial_rx h)) as [| r rx];
    destruct (_ =? 0); unfold ret; rewrite end_configuration_run;
    count_closes.
Qed.

Lemma backup_settings_closes c :
  closes (radar (snd (backup_settings c))) =
  (closes (radar c) +
   if acknowledged (hd [] (serial_rx (radar c))) then 1 else 0)%nat.
Proof.
  unfold backup_settings, bind, on_radar.
  rewrite enable_configuration_run.
  destruct (acknowledged _); cbn [negb radar]; [| count_closes].
  rewrite send_command_run by (simpl; lia).
  destruct (30 <=? _)%nat; unfold set_original_settings, modify, ret, get;
    cbn [radar]; rewrite end_configuration_run; count_closes.
Qed.

Lemma restore_factory_defaults_closes c :
  closes (radar (snd (restore_factory_defaults c))) =
  (closes (radar c) +
   if acknowledged (hd [] (serial_rx (radar c))) then 1 else 0)%nat.
Proof.
  unfold restore_factory_defaults, bind, on_radar.
  rewrite enable_configuration_run.
  destruct (acknowledged _); cbn [negb radar]; [| count_closes].
  rewrite send_command_run by (simpl; lia).
  destruct (status_ok _); cbn [radar].
  - rewrite send_command_run by (simpl; lia).
    unfold sleep, modify. cbn [radar].
    rewrite end_configuration_run. count_closes.
  - unfold ret. cbn [radar]. rewrite end_configuration_run. count_closes.
Qed.

Lemma to_bytes_le_4_small x :
  0 <= x <= 100 -> to_bytes_le 4 x = Ok (le_digits 4 x).
Proof.
  intros H. unfold to_bytes_le.
  replace ((0 <=? x) && (x <? 256 ^ Z.of_nat 4)) with true; [reflexivity |].
  symmetry. apply andb_true_iff. split; [apply Z.leb_le | apply Z.ltb_lt];
    simpl; lia.
Qed.

Lemma range_check lo hi x :
  (lo <=? x) && (x <=? hi) = true <-> lo <= x <= hi.
Proof. rewrite andb_true_iff, !Z.leb_le. tauto. Qed.

Lemma configure_detection_gates_closes m s c :
  closes (radar (snd (configure_detection_gates m s c))) =
  (closes (radar c) +
   if opens_session (ConfigureDetectionGates m s) c then 1 else 0)%nat.
Proof.
  rewrite opens_session_unfold. cbn [arguments_accepted].
  unfold configure_detection_gates.
  destruct (((1 <=? m) && (m <=? 8)) && ((1 <=? s) && (s <=? 8))) eqn:Hargs;
    cbn [negb andb]; [| count_closes].
  apply andb_true_iff in Hargs. destruct Hargs as [Hm Hs].
  apply range_check in Hm, Hs.
  unfold bind, on_radar. rewrite enable_configuration_run.
  destruct (acknowledged _); cbn [negb radar]; [| count_closes].
  unfold lift_result.
  rewrite !to_bytes_le_4_small by lia. cbn [radar].
  rewrite send_command_run by (simpl; lia).
  rewrite end_configuration_run. count_closes.
Qed.

Lemma configure_sensitivity_closes g m s c :
  closes (radar (snd (configure_sensitivity g m s c))) =
  (closes (radar c) +
   if opens_session (ConfigureSensitivity g m s) c then 1 else 0)%nat.
Proof.
  rewrite opens_session_unfold. cbn [arguments_accepted].
  unfold configure_sensitivity.
  destruct ((0 <=? g) && (g <=? 8)) eqn:Hg; cbn [negb andb]; [| count_closes].
  destruct (((0 <=? m) && (m <=? 100)) && ((0 <=? s) && (s <=? 100)))
    eqn:Hargs; cbn [negb andb]; [| count_closes].
  apply andb_true_iff in Hargs. destruct Hargs as [Hm Hs].
  apply range_check in Hg, Hm, Hs.
  unfold bind, on_radar. rewrite enable_configuration_run.
  destruct (acknowledged _); cbn [negb radar]; [| count_closes].
  unfold lift_result.
  rewrite !to_bytes_le_4_small by lia. cbn [radar].
  rewrite send_command_run by (simpl; lia).
  rewrite end_configuration_run. count_closes.
Qed.

(** Every exit path of every operation: one close frame when the session
    was opened, none when it was not. *)
Lemma run_operation_closes op c :
  closes (radar (snd (run_operation op c))) =
  (closes (radar c) + if opens_session op c then 1 else 0)%nat.
Proof.
  destruct op; cbn [run_operation].
  - rewrite opens_session_unfold. unfold on_radar.
    pose proof (enable_engineering_mode_closes (radar c)) as H.
    destruct (enable_engineering_mode (radar c)). exact H.
  - rewrite opens_session_unfold. unfold on_radar.
    pose proof (disable_engineering_mode_closes (radar c)) as H.
    destruct (disable_engineering_mode (radar c)). exact H.
  - rewrite opens_session_unfold. apply backup_settings_closes.
  - rewrite opens_session_unfold. apply restore_factory_defaults_closes.
  - apply configure_detection_gates_closes.
  - apply configure_sensitivity_closes.
Qed.

(** C3. An operation that opens a configuration session writes the
    session-close frame exactly once before it returns, whatever the port
    answers afterwards: on success, on a nonzero status, on a timeout and on
    an answer shorter than 12 bytes. *)
Theorem session_closed_exactly_once (op : operation) (c : RadarCalibrator) :
  opens_session op c = true ->
  closes (radar (snd (run_operation op c))) = S (closes (radar c)).
Proof.
  intros Hopen. rewrite run_operation_closes, Hopen. lia.
Qed.

(** On the path where the answer to the engineering-mode command is only
    four bytes long. *)
Lemma session_closed_exactly_once_witness :
  opens_session EnableEngineeringMode
    (RadarCalibrator_init [ack xff x00; COMMAND_TAIL] 0) = true /\
  fst (run_operation EnableEngineeringMode
         (RadarCalibrator_init [ack xff x00; COMMAND_TAIL] 0)) = Ok false /\
  closes (radar (snd (run_operation EnableEngineeringMode
                        (RadarCalibrator_init [ack xff x00; COMMAND_TAIL] 0))))
  = 1%nat.
Proof.
  split; [reflexivity |]. split; [reflexivity |].
  apply (session_closed_exactly_once EnableEngineeringMode
           (RadarCalibrator_init [ack xff x00; COMMAND_TAIL] 0)).
  reflexivity.
Defined.

(** ** Decoding *)

Lemma skipn_nth_cons {A} (d : A) (l : list A) i :
  (i < length l)%nat -> skipn i l = nth i l d :: skipn (S i) l.
Proof.
  revert i. induction l as [| a l IH]; intros i Hi; simpl in Hi; [lia |].
  destruct i as [| i]; [reflexivity |].
  cbn [skipn nth]. apply IH. lia.
Qed.

(** The guarded loop copies what is there and stops at the end of the data. *)
Lemma collect_gates_from eng_data offset n s out :
  fold_left
    (fun out i =>
       if (offset + i <? length eng_data)%nat
       then out ++ [byte_val (nth (offset + i) eng_data x00)]
       else out)
    (seq s n) out =
  out ++ map byte_val (firstn n (skipn (offset + s) eng_data)).
Proof.
  revert s out. induction n as [| n IH]; intros s out.
  - simpl. rewrite app_nil_r. reflexivity.
  - cbn [seq fold_left]. rewrite IH.
    destruct (offset + s <? length eng_data)%nat eqn:E.
    + apply Nat.ltb_lt in E.
      rewrite (skipn_nth_cons x00 eng_data (offset + s)) by exact E.
      cbn [firstn map]. rewrite <- app_assoc.
      replace (offset + S s)%nat with (S (offset + s)) by lia. reflexivity.
    + apply Nat.ltb_ge in E.
      rewrite !skipn_all2 by lia. rewrite !firstn_nil. reflexivity.
Qed.

Lemma collect_gates_truncates eng_data offset n :
  collect_gates eng_data offset n =
  map byte_val (firstn n (skipn offset eng_data)).
Proof.
  unfold collect_gates. rewrite collect_gates_from.
  rewrite Nat.add_0_r. reflexivity.
Qed.

Lemma parse_engineering_run (mm ms : byte) (rest : bytes) :
  parse_engineering (mm :: ms :: rest) =
  Ok {| max_moving_distance_gate := byte_val mm;
        max_static_distance_gate := byte_val ms;
        moving_energy_gates :=
          map byte_val (firstn (Z.to_nat (byte_val mm + 1)) rest);
        static_energy_gates :=
          map byte_val
            (firstn (Z.to_nat (byte_val ms + 1))
                    (skipn (Z.to_nat (byte_val mm + 1)) rest)) |}.
Proof.
  unfold parse_engineering, index. cbn [nth_error].
  rewrite !collect_gates_truncates.
  replace (2 + Z.to_nat (byte_val mm + 1))%nat
    with (S (S (Z.to_nat (byte_val mm + 1)))) by lia.
  reflexivity.
Qed.

Lemma read_frame_never_raises h :
  exists r h', read_frame h = (Ok r, h').
Proof.
  unfold read_frame, try_except.
  match goal with |- context [match ?m h with _ => _ end] =>
    destruct (m h) as [[r | e] h'] end.
  - exists r, h'. reflexivity.
  - exists None, h'. reflexivity.
Qed.

(** C5. An engineering payload that carries fewer gate bytes than it
    declares is decoded without raising and without padding: the moving
    gates are the first [max_moving_gate + 1] bytes that are present, the
    static gates the first [max_static_gate + 1] bytes present after the
    declared moving block, and [read_frame] itself never raises. A payload
    declaring [max_moving_gate = 2] with two trailing bytes yields exactly
    those two moving-gate values. *)
Theorem engineering_gates_truncated :
  (forall (mm ms : byte) (rest : bytes),
     exists e,
       parse_engineering (mm :: ms :: rest) = Ok e /\
       moving_energy_gates e =
         map byte_val (firstn (Z.to_nat (byte_val mm + 1)) rest) /\
       static_energy_gates e =
         map byte_val (firstn (Z.to_nat (byte_val ms + 1))
                         (skipn (Z.to_nat (byte_val mm + 1)) rest)) /\
       length (moving_energy_gates e) =
         Nat.min (Z.to_nat (byte_val mm + 1)) (length rest) /\
       length (static_energy_gates e) =
         Nat.min (Z.to_nat (byte_val ms + 1))
                 (length rest - Z.to_nat (byte_val mm + 1))) /\
  (forall h, exists r h', read_frame h = (Ok r, h')) /\
  (exists reading h',
     read_frame short_engineering_handler = (Ok (Some reading), h') /\
     engineering_data reading =
       Some {| max_moving_distance_gate := 2;
               max_static_distance_gate := 1;
               moving_energy_gates := [40; 30];
               static_energy_gates := [] |}).
Proof.
  split; [| split].
  - intros mm ms rest. eexists. split; [apply parse_engineering_run |].
    cbn [moving_energy_gates static_energy_gates].
    rewrite !length_map, !length_firstn, length_skipn. auto.
  - exact read_frame_never_raises.
  - eexists. eexists. split; [vm_compute; reflexivity | reflexivity].
Qed.

(** ** The moving average *)

Lemma lastn_all {A} n (l : list A) : (length l <= n)%nat -> lastn n l = l.
Proof.
  intros H. unfold lastn. replace (length l - n)%nat with 0%nat by lia.
  reflexivity.
Qed.

Lemma lastn_length {A} n (l : list A) :
  length (lastn n l) = Nat.min n (length l).
Proof. unfold lastn. rewrite length_skipn. lia. Qed.

Lemma lastn_snoc {A} n (l : list A) x :
  lastn n (lastn n l ++ [x]) = lastn n (l ++ [x]).
Proof.
  destruct (Nat.le_gt_cases (length l) n) as [Hle | Hgt].
  - rewrite (lastn_all n l) by exact Hle. reflexivity.
  - unfold lastn at 2.
    replace (skipn (length l - n) l ++ [x])
      with (skipn (length l - n) (l ++ [x])).
    + unfold lastn. rewrite skipn_skipn, length_skipn, length_app.
      cbn [length]. f_equal. lia.
    + rewrite skipn_app.
      replace (length l - n - length l)%nat with 0%nat by lia. reflexivity.
Qed.

Lemma drop_oldest_lastn {A} n (l : list A) x :
  (length l <= n)%nat ->
  (if (n <? length (l ++ [x]))%nat then tl (l ++ [x]) else l ++ [x]) =
  lastn n (l ++ [x]).
Proof.
  intros Hle. destruct (n <? length (l ++ [x]))%nat eqn:E.
  - apply Nat.ltb_lt in E. rewrite length_app in E. cbn [length] in E.
    unfold lastn. rewrite length_app. cbn [length].
    replace (length l + 1 - n)%nat with 1%nat by lia.
    destruct (l ++ [x]); reflexivity.
  - apply Nat.ltb_ge in E. symmetry. apply lastn_all. exact E.
Qed.


Section MovingAverageWindow.
Context {number : Type} `{Numbers number}.



End MovingAverageWindow.

(** The float instance rounds as Python does: the mean of 1, 1, 2 is the
    float nearest to 4/3, and [2^53 + 1] is averaged as [2^53]. *)
Lemma moving_average_rounds :
  fst (feed (map float_of_Z [1; 1; 2]) (MovingAverage_init 3)) =
    [float_of_Z 1; float_of_Z 1;
     SpecFloat.S754_finite false 6004799503160661 (-52)] /\
  fst (feed [float_of_Z (2 ^ 53 + 1)] (MovingAverage_init 1)) =
    [float_of_Z (2 ^ 53)].
Proof. split; vm_compute; reflexivity. Qed.


(** ** The history buffer *)

Section Stable.
Context {S T : Type} (proj : S -> T).

Lemma stable_ret {A} (a : A) : stable proj (ret a).
Proof. intros s. reflexivity. Qed.

Lemma stable_get : stable proj get.
Proof. intros s. reflexivity. Qed.

Lemma stable_lift_result {A} (r : result A) : stable proj (lift_result r).
Proof. intros s. reflexivity. Qed.

Lemma stable_bind {A B} (m : M S A) (k : A -> M S B) :
  stable proj m -> (forall a, stable proj (k a)) -> stable proj (bind m k).
Proof.
  intros Hm Hk s. unfold bind. specialize (Hm s).
  destruct (m s) as [[a | e] s1]; cbn [snd] in Hm |- *.
  - rewrite Hk. exact Hm.
  - exact Hm.
Qed.

Lemma stable_modify (f : S -> S) :
  (forall s, proj (f s) = proj s) -> stable proj (modify f).
Proof. intros Hf s. apply Hf. Qed.
End Stable.

Lemma stable_on_radar {A} (m : M RadarHandler A) :
  stable history m -> stable (fun c => history (radar c)) (on_radar m).
Proof.
  intros Hm c. unfold on_radar. specialize (Hm (radar c)).
  destruct (m (radar c)) as [r h]. exact Hm.
Qed.

Lemma stable_serial_read_until : stable history serial_read_until.
Proof.
  intros h. unfold serial_read_until. destruct (serial_rx h); reflexivity.
Qed.

(** Discharges [stable] goals by following the structure of the code. *)
Ltac stable_step :=
  first
    [ apply stable_ret
    | apply stable_get
    | apply stable_lift_result
    | apply stable_serial_read_until
    | apply stable_modify; intros; reflexivity
    | apply stable_on_radar
    | apply stable_bind; [| intros ]
    | match goal with
      | |- stable _ (if ?b then _ else _) => destruct b
      end ].

Lemma stable_send_command w v : stable history (send_command w v).
Proof.
  unfold send_command, serial_reset_input_buffer, sleep, serial_write.
  repeat stable_step.
Qed.

Lemma stable_enable_configuration : stable history enable_configuration.
Proof.
  unfold enable_configuration.
  apply stable_bind; [apply stable_send_command | intros].
  repeat stable_step.
Qed.

Lemma stable_end_configuration : stable history end_configuration.
Proof.
  unfold end_configuration.
  apply stable_bind; [apply stable_send_command | intros].
  repeat stable_step.
Qed.

Ltac stable_auto :=
  repeat first
    [ apply stable_send_command
    | apply stable_enable_configuration
    | apply stable_end_configuration
    | stable_step ].

(** No operation touches the history buffer or its capacity. *)
Lemma stable_run_operation op :
  stable (fun c => history (radar c)) (run_operation op).
Proof.
  destruct op; cbn [run_operation].
  - unfold enable_engineering_mode. stable_auto.
  - unfold disable_engineering_mode, serial_write. stable_auto.
  - unfold backup_settings, set_original_settings. stable_auto.
  - unfold restore_factory_defaults, sleep. stable_auto.
  - unfold configure_detection_gates. stable_auto.
  - unfold configure_sensitivity. stable_auto.
Qed.

Lemma next_decoded_after_read h :
  decode_reading (engineering_mode (after_read h)) (clock (after_read h))
    (hd [] (serial_rx h)) = next_decoded h.
Proof.
  unfold next_decoded, after_read. destruct (serial_rx h); reflexivity.
Qed.

(** One [read_frame], written out. *)
Lemma read_frame_run h :
  read_frame h =
  match next_decoded h with
  | Ok (Some reading) =>
    if is_valid reading then
      (Ok (Some reading),
       set_readings_buffer
         (if (max_buffer_size h <? length (readings_buffer h ++ [reading]))%nat
          then tl (readings_buffer h ++ [reading])
          else readings_buffer h ++ [reading])
         (after_read h))
    else (Ok None, after_read h)
  | _ => (Ok None, after_read h)
  end.
Proof.
  rewrite <- next_decoded_after_read.
  unfold read_frame, try_except, bind, get, lift_result.
  assert (Hread : serial_read_until h = (Ok (hd [] (serial_rx h)), after_read h)).
  { unfold serial_read_until, after_read. destruct (serial_rx h); reflexivity. }
  rewrite Hread.
  assert (Hbuf : readings_buffer (after_read h) = readings_buffer h)
    by (unfold after_read; destruct (serial_rx h); reflexivity).
  assert (Hmax : max_buffer_size (after_read h) = max_buffer_size h)
    by (unfold after_read; destruct (serial_rx h); reflexivity).
  destruct (decode_reading _ _ _) as [[reading |] | e]; try reflexivity.
  destruct (is_valid reading); [| reflexivity].
  unfold modify, ret.
  cbn [set_readings_buffer readings_buffer max_buffer_size].
  rewrite Hbuf, Hmax.
  destruct (_ <? _)%nat; reflexivity.
Qed.

Lemma Forall_lastn {A} (P : A -> Prop) n l :
  Forall P l -> Forall P (lastn n l).
Proof.
  intros H. unfold lastn. rewrite <- (firstn_skipn (length l - n) l) in H.
  apply Forall_app in H. apply H.
Qed.

(** The buffer follows the readings handed out, through any run of calls. *)
Lemma run_calls_buffer cs : forall c pre,
  max_buffer_size (radar c) = 1000%nat ->
  readings_buffer (radar c) = lastn 1000 pre ->
  max_buffer_size (radar (snd (run_calls cs c))) = 1000%nat /\
  readings_buffer (radar (snd (run_calls cs c))) =
    lastn 1000 (pre ++ fst (run_calls cs c)) /\
  Forall (fun r => is_valid r = true) (fst (run_calls cs c)).
Proof.
  induction cs as [| [| op] cs IH]; intros c pre Hmax Hbuf.
  - cbn [run_calls fst snd]. rewrite app_nil_r. auto.
  - cbn [run_calls]. unfold on_radar. rewrite read_frame_run.
    assert (Hskip :
      forall c', max_buffer_size (radar c') = 1000%nat ->
                 readings_buffer (radar c') = lastn 1000 pre ->
      max_buffer_size (radar (snd (run_calls cs c'))) = 1000%nat /\
      readings_buffer (radar (snd (run_calls cs c'))) =
        lastn 1000 (pre ++ fst (run_calls cs c')) /\
      Forall (fun r => is_valid r = true) (fst (run_calls cs c')))
      by (intros; apply IH; assumption).
    assert (Hbuf' : readings_buffer (after_read (radar c)) = lastn 1000 pre)
      by (unfold after_read; destruct (serial_rx (radar c)); exact Hbuf).
    assert (Hmax' : max_buffer_size (after_read (radar c)) = 1000%nat)
      by (unfold after_read; destruct (serial_rx (radar c)); exact Hmax).
    destruct (next_decoded (radar c)) as [[reading |] | e];
      [| apply Hskip; assumption | apply Hskip; assumption].
    destruct (is_valid reading) eqn:Hvalid; [| apply Hskip; assumption].
    match goal with |- context [run_calls cs ?c1] =>
      specialize (IH c1 (pre ++ [reading])) end.
    cbn [radar set_readings_buffer max_buffer_size readings_buffer] in IH.
    destruct IH as (IH1 & IH2 & IH3).
    + exact Hmax'.
    + rewrite Hmax, Hbuf, drop_oldest_lastn, lastn_snoc.
      * reflexivity.
      * rewrite lastn_length. lia.
    + destruct (run_calls cs _) as [rs c2]. cbn [fst snd] in *.
      rewrite <- app_assoc in IH2. cbn [app] in IH2. auto.
  - cbn [run_calls].
    pose proof (stable_run_operation op c) as Hop.
    unfold history in Hop. injection Hop as Hb Hm.
    apply IH; congruence.
Qed.

(** C8. Through any interleaving of [read_frame] calls and operations on a
    fresh handler, the buffer is the last 1000 readings handed out, in
    order; it never holds more than 1000 readings and every one is valid.
    A single [read_frame] never raises: it appends and returns the reading
    it decoded when that reading is valid (dropping the oldest entry on
    overflow), and otherwise returns [None] and leaves the buffer as it
    was. *)
Theorem history_buffer_invariant :
  (forall (rx : list bytes) (now : Z) (cs : list call),
     let buffer :=
       readings_buffer (radar (snd (run_calls cs (RadarCalibrator_init rx now)))) in
     let handed_out := fst (run_calls cs (RadarCalibrator_init rx now)) in
     buffer = lastn 1000 handed_out /\
     (length buffer <= 1000)%nat /\
     Forall (fun r => is_valid r = true) buffer) /\
  (forall h : RadarHandler,
     exists returned h',
       read_frame h = (Ok returned, h') /\
       match next_decoded h with
       | Ok (Some reading) =>
         if is_valid reading then
           returned = Some reading /\
           readings_buffer h' =
             (if (max_buffer_size h <?
                  length (readings_buffer h ++ [reading]))%nat
              then tl (readings_buffer h ++ [reading])
              else readings_buffer h ++ [reading])
         else returned = None /\ readings_buffer h' = readings_buffer h
       | _ => returned = None /\ readings_buffer h' = readings_buffer h
       end).
Proof.
  split.
  - intros rx now cs buffer handed_out. subst buffer handed_out.
    destruct (run_calls_buffer cs (RadarCalibrator_init rx now) [])
      as (_ & Hbuf & Hvalid); [reflexivity | reflexivity |].
    cbn [app] in Hbuf. rewrite Hbuf. split; [reflexivity |]. split.
    + rewrite lastn_length. lia.
    + apply Forall_lastn. exact Hvalid.
  - intros h. rewrite read_frame_run.
    assert (Hbuf : readings_buffer (after_read h) = readings_buffer h)
      by (unfold after_read; destruct (serial_rx h); reflexivity).
    destruct (next_decoded h) as [[reading |] | e];
      [| eexists; eexists; split; [reflexivity | auto]
       | eexists; eexists; split; [reflexivity | auto]].
    destruct (is_valid reading);
      eexists; eexists; (split; [reflexivity | auto]).
Qed.

(** ** The sensitivity sweep *)

Lemma count_detections_run n : forall d c,
  exists d' c',
    count_detections n d c = (Ok d', c') /\ d <= d' <= d + Z.of_nat n.
Proof.
  induction n as [| n IH]; intros d c.
  - exists d, c. split; [reflexivity | lia].
  - cbn [count_detections]. unfold bind at 1. unfold on_radar at 1.
    destruct (read_frame_never_raises (radar c)) as (r & h' & Hread).
    rewrite Hread. unfold bind at 1. unfold on_radar at 1, sleep, modify.
    match goal with |- context [count_detections n ?d1 ?c1] =>
      destruct (IH d1 c1) as (d' & c' & Hrun & Hd) end.
    exists d', c'. split; [exact Hrun |].
    destruct r as [r |]; [destruct (_ && _) |]; lia.
Qed.

(** One measurement: the rate is a count of at most [samples] detections
    over [samples]. *)
Lemma measure_rate_run samples s c :
  0 < samples ->
  exists d c',
    measure_rate samples s c = (Ok (inject_Z d / inject_Z samples)%Q, c') /\
    0 <= d <= samples.
Proof.
  intros Hs. unfold measure_rate. unfold bind at 1.
  rewrite configure_sensitivity_255_run.
  unfold bind.
  destruct (count_detections_run (Z.to_nat samples) 0 c)
    as (d & c' & Hrun & Hd).
  rewrite Hrun. exists d, c'. split.
  - unfold lift_result, true_div.
    destruct (Z.eqb_spec samples 0); [lia | reflexivity].
  - lia.
Qed.

Lemma sweep_trace_run samples ss : forall c,
  0 < samples ->
  exists trace c',
    sweep_trace samples ss c = (Ok trace, c') /\
    map fst trace = ss /\
    Forall (fun p => exists d, 0 <= d <= samples /\
                               snd p = (inject_Z d / inject_Z samples)%Q)
           trace.
Proof.
  induction ss as [| s ss IH]; intros c Hs.
  - exists [], c. repeat split; constructor.
  - cbn [sweep_trace]. unfold bind at 1.
    destruct (measure_rate_run samples s c Hs) as (d & c1 & Hm & Hd).
    rewrite Hm. unfold bind.
    destruct (IH c1 Hs) as (trace & c' & Ht & Hfst & Hrates).
    rewrite Ht. exists ((s, (inject_Z d / inject_Z samples)%Q) :: trace), c'.
    split; [reflexivity |]. split.
    + cbn [map fst]. rewrite Hfst. reflexivity.
    + constructor; [exists d; split; [exact Hd | reflexivity] | exact Hrates].
Qed.

(** The loop is a left fold of the strict update over the measured rates. *)
Lemma sweep_as_fold samples ss : forall best c,
  sweep samples ss best c =
  match sweep_trace samples ss c with
  | (Ok trace, c') => (Ok (fold_left strict_update trace best), c')
  | (Raise e, c') => (Raise e, c')
  end.
Proof.
  induction ss as [| s ss IH]; intros best c.
  - reflexivity.
  - cbn [sweep sweep_trace]. unfold bind.
    destruct (measure_rate samples s c) as [[rate | e] c1]; [| reflexivity].
    replace (if Qgtb rate (snd best)
             then sweep samples ss (s, rate)
             else sweep samples ss best)
      with (sweep samples ss (strict_update best (s, rate)))
      by (unfold strict_update; cbn [snd]; destruct (Qgtb _ _); reflexivity).
    rewrite IH.
    destruct (sweep_trace samples ss c1) as [[trace | e] c2]; reflexivity.
Qed.

Lemma Qgtb_true a b : Qgtb a b = true <-> (b < a)%Q.
Proof.
  unfold Qgtb. rewrite (Qgt_alt a b).
  destruct (a ?= b)%Q; split; congruence.
Qed.

Lemma Qgtb_false a b : Qgtb a b = false <-> (a <= b)%Q.
Proof.
  unfold Qgtb. rewrite (Qle_alt a b).
  destruct (a ?= b)%Q; split; congruence.
Qed.

(** Rates that never exceed the current best leave it in place. *)
Lemma fold_strict_update_keeps trace : forall best,
  Forall (fun p => (snd p <= snd best)%Q) trace ->
  fold_left strict_update trace best = best.
Proof.
  induction trace as [| p trace IH]; intros best H; [reflexivity |].
  inversion H as [| ? ? Hp Hrest]; subst.
  cbn [fold_left]. unfold strict_update at 2.
  apply Qgtb_false in Hp. rewrite Hp. apply IH. exact Hrest.
Qed.

(** Otherwise the fold ends on the first entry with the greatest rate. *)
Lemma fold_strict_update_first_maximum trace : forall best,
  Exists (fun p => (snd best < snd p)%Q) trace ->
  first_maximum (fold_left strict_update trace best) trace /\
  (snd best < snd (fold_left strict_update trace best))%Q.
Proof.
  induction trace as [| p trace IH]; intros best Hex.
  - inversion Hex.
  - cbn [fold_left]. unfold strict_update at 2 4.
    destruct (Qgtb (snd p) (snd best)) eqn:Hp.
    + apply Qgtb_true in Hp.
      destruct (Exists_dec (fun q => (snd p < snd q)%Q) trace) as [Hmore | Hnone].
      * intros q. destruct (Qlt_le_dec (snd p) (snd q)); [left | right]; auto.
        apply Qle_not_lt. assumption.
      * destruct (IH p Hmore) as ((pre & post & Ht & Hpre & Hpost) & Hlt).
        split; [| eapply Qlt_trans; eassumption].
        exists (p :: pre), post. split; [cbn [app]; f_equal; exact Ht |].
        split; [constructor; assumption | assumption].
      * assert (Hall : Forall (fun q => (snd q <= snd p)%Q) trace).
        { apply Forall_forall. intros q Hq. apply Qnot_lt_le. intros Hlt.
          apply Hnone. apply Exists_exists. exists q. auto. }
        rewrite fold_strict_update_keeps by exact Hall.
        split; [| exact Hp].
        exists [], trace. split; [reflexivity |]. split; [constructor | exact Hall].
    + apply Qgtb_false in Hp.
      assert (Hmore : Exists (fun q => (snd best < snd q)%Q) trace).
      { inversion Hex as [? ? Hhd | ? ? Htl]; subst; [| exact Htl].
        exfalso. apply (Qlt_not_le _ _ Hhd). exact Hp. }
      destruct (IH best Hmore) as ((pre & post & Ht & Hpre & Hpost) & Hlt).
      split; [| exact Hlt].
      exists (p :: pre), post. split; [cbn [app]; f_equal; exact Ht |].
      split; [| assumption].
      constructor; [| assumption].
      eapply Qle_lt_trans; eassumption.
Qed.

(** [range(lo, hi + 1, 5)] is [lo], [lo + 5], ... up to and including [hi]. *)
Lemma range_step5_spec lo hi s :
  In s (range_step5 lo (hi + 1)) <->
  exists k : nat, s = lo + 5 * Z.of_nat k /\ s <= hi.
Proof.
  unfold range_step5. rewrite in_map_iff. split.
  - intros (k & Hk & Hin). apply in_seq in Hin. exists k. split; [auto |].
    subst s. destruct Hin as [_ Hlt]. cbn [Nat.add] in Hlt.
    assert (0 < (hi + 1 - lo + 4) / 5) by lia.
    assert (Z.of_nat k < (hi + 1 - lo + 4) / 5) by lia.
    Z.to_euclidean_division_equations. lia.
  - intros (k & Hk & Hle). exists k. split; [auto |].
    apply in_seq. split; [lia |]. cbn [Nat.add].
    assert (Z.of_nat k < (hi + 1 - lo + 4) / 5)
      by (Z.to_euclidean_division_equations; lia).
    lia.
Qed.

Lemma stable_tx_read_frame :
  stable (fun c => serial_tx (radar c)) (on_radar read_frame).
Proof.
  intros c. unfold on_radar. rewrite read_frame_run.
  assert (Htx : serial_tx (after_read (radar c)) = serial_tx (radar c))
    by (unfold after_read; destruct (serial_rx (radar c)); reflexivity).
  destruct (next_decoded (radar c)) as [[reading |] | e]; try exact Htx.
  destruct (is_valid reading); exact Htx.
Qed.

Lemma stable_tx_count_detections n : forall d,
  stable (fun c => serial_tx (radar c)) (count_detections n d).
Proof.
  induction n as [| n IH]; intros d; cbn [count_detections].
  - apply stable_ret.
  - apply stable_bind; [apply stable_tx_read_frame | intros r].
    apply stable_bind; [| intros; apply IH].
    intros c. reflexivity.
Qed.

Lemma stable_tx_measure_rate samples s :
  stable (fun c => serial_tx (radar c)) (measure_rate samples s).
Proof.
  unfold measure_rate.
  apply stable_bind; [intros c; reflexivity | intros _].
  apply stable_bind; [apply stable_tx_count_detections | intros d].
  apply stable_lift_result.
Qed.

Lemma stable_tx_sweep samples ss : forall best,
  stable (fun c => serial_tx (radar c)) (sweep samples ss best).
Proof.
  induction ss as [| s ss IH]; intros best; cbn [sweep].
  - apply stable_ret.
  - apply stable_bind; [apply stable_tx_measure_rate | intros rate].
    destruct (Qgtb rate (snd best)); apply IH.
Qed.

(** C1. The gate check of [configure_sensitivity] rejects the all-gates
    selector [0xFF] that the sweep passes: whatever the two sensitivities,
    the call returns [False] and leaves the calibrator untouched, so no
    session is opened and nothing is encoded; a whole sweep therefore
    writes no frame to the port. *)
Theorem configure_sensitivity_all_gates_rejected :
  (forall (motion_sensitivity static_sensitivity : Z) (c : RadarCalibrator),
     configure_sensitivity 255 motion_sensitivity static_sensitivity c =
     (Ok false, c)) /\
  (forall (distance : Q) (lo hi samples : Z) (c : RadarCalibrator),
     serial_tx (radar (snd (find_optimal_sensitivity distance lo hi samples c)))
     = serial_tx (radar c)).
Proof.
  split.
  - intros ms ss c. reflexivity.
  - intros distance lo hi samples c.
    apply (stable_tx_sweep samples (range_step5 lo (hi + 1)) (0, 0%Q) c).
Qed.

(** C7. For a positive sample count the sweep measures one rate per
    sensitivity [lo], [lo + 5], ... up to and including [hi], each rate
    being a count of detections over the sample count, and returns the
    left fold of the strict update over them from [(0, 0)]: when some
    measured rate is above 0, that is the first sensitivity with the
    greatest rate. On the responder that detects 24 times out of 30 at
    sensitivity 50 and 12 times out of 30 elsewhere over [0, 100], it
    returns [(50, 0.8)]. *)
Theorem sweep_returns_first_maximum :
  (forall (distance : Q) (lo hi samples : Z) (c : RadarCalibrator),
     0 < samples ->
     exists trace c',
       sweep_trace samples (range_step5 lo (hi + 1)) c = (Ok trace, c') /\
       (forall s, In s (map fst trace) <->
                  exists k : nat, s = lo + 5 * Z.of_nat k /\ s <= hi) /\
       map fst trace =
         map (fun k => lo + 5 * Z.of_nat k) (seq 0 (length trace)) /\
       Forall (fun p => exists d, 0 <= d <= samples /\
                                  snd p = (inject_Z d / inject_Z samples)%Q)
              trace /\
       find_optimal_sensitivity distance lo hi samples c =
         (Ok (fold_left strict_update trace (0, 0%Q)), c') /\
       (Exists (fun p => (0 < snd p)%Q) trace ->
        first_maximum (fold_left strict_update trace (0, 0%Q)) trace)) /\
  (exists rate,
     fst (find_optimal_sensitivity 100 0 100 30
            (RadarCalibrator_init synthetic_responder 0)) = Ok (50, rate) /\
     (rate == 8 # 10)%Q).
Proof.
  split.
  - intros distance lo hi samples c Hs.
    destruct (sweep_trace_run samples (range_step5 lo (hi + 1)) c Hs)
      as (trace & c' & Ht & Hfst & Hrates).
    exists trace, c'. split; [exact Ht |]. split; [| split; [| split; [| split]]].
    + intros s. rewrite Hfst. apply range_step5_spec.
    + rewrite Hfst at 1. unfold range_step5. f_equal. f_equal.
      rewrite <- (length_map fst trace), Hfst. unfold range_step5.
      rewrite length_map, length_seq. reflexivity.
    + exact Hrates.
    + unfold find_optimal_sensitivity. rewrite sweep_as_fold, Ht. reflexivity.
    + intros Hex. apply (fold_strict_update_first_maximum trace (0, 0%Q)).
      exact Hex.
  - exists (24 # 30)%Q. split; [vm_compute; reflexivity | reflexivity].
Qed.

(** Two sensitivities tie at the greatest rate; the lower one is returned. *)
Lemma sweep_returns_first_maximum_witness :
  0 < 2 /\
  fst (find_optimal_sensitivity 100 0 10 2 tie_calibrator) = Ok (5, (2 # 2)%Q) /\
  first_maximum (5, (2 # 2)%Q) tie_trace.
Proof.
  split; [lia |].
  destruct (proj1 sweep_returns_first_maximum 100%Q 0 10 2 tie_calibrator)
    as (trace & c' & Ht & _ & _ & _ & Hfind & Hfirst); [lia |].
  assert (Htrace : trace = tie_trace).
  { assert (H : fst (sweep_trace 2 (range_step5 0 (10 + 1)) tie_calibrator)
                = Ok trace) by (rewrite Ht; reflexivity).
    vm_compute in H. injection H as H. symmetry. exact H. }
  subst trace. rewrite Hfind. split; [reflexivity |].
  apply Hfirst. left. reflexivity.
Defined.

(** With [min_sensitivity = 10] and no detection at all, the sweep returns
    sensitivity 0, which it never tested: no entry of the measured rates is
    the returned pair. *)
Lemma sweep_first_maximum_counterexample :
  fst (sweep_trace 2 (range_step5 10 (20 + 1)) silent_calibrator) =
    Ok silent_trace /\
  fst (find_optimal_sensitivity 100 10 20 2 silent_calibrator) =
    Ok (0, 0%Q) /\
  ~ first_maximum (0, 0%Q) silent_trace.
Proof.
  split; [reflexivity |]. split; [reflexivity |].
  intros (pre & post & Ht & _).
  assert (Hin : In (0, 0%Q) silent_trace)
    by (rewrite Ht; apply in_elt).
  unfold silent_trace in Hin. cbn [In] in Hin.
  destruct Hin as [H | [H | [H | []]]]; discriminate H.
Qed.

(** C10. When no measured rate is above 0 the sweep returns the initial
    pair [(0, 0)]; for a positive sample count the rates are always
    measured, and for a positive [min_sensitivity] the sensitivity 0 that is
    returned is none of the tested ones. *)
Theorem sweep_without_detection_returns_initial :
  (forall (distance : Q) (lo hi samples : Z) (c c' : RadarCalibrator)
          (trace : list (Z * Q)),
     sweep_trace samples (range_step5 lo (hi + 1)) c = (Ok trace, c') ->
     Forall (fun p => (snd p <= 0)%Q) trace ->
     find_optimal_sensitivity distance lo hi samples c = (Ok (0, 0%Q), c')) /\
  (forall (lo hi samples : Z) (c : RadarCalibrator),
     0 < samples ->
     exists trace c',
       sweep_trace samples (range_step5 lo (hi + 1)) c = (Ok trace, c')) /\
  (forall lo hi : Z, 0 < lo -> ~ In 0 (range_step5 lo (hi + 1))).
Proof.
  split; [| split].
  - intros distance lo hi samples c c' trace Ht Hzero.
    unfold find_optimal_sensitivity. rewrite sweep_as_fold, Ht.
    rewrite fold_strict_update_keeps by exact Hzero. reflexivity.
  - intros lo hi samples c Hs.
    destruct (sweep_trace_run samples (range_step5 lo (hi + 1)) c Hs)
      as (trace & c' & Ht & _).
    exists trace, c'. exact Ht.
  - intros lo hi Hlo Hin. apply range_step5_spec in Hin.
    destruct Hin as (k & Hk & _). lia.
Qed.

Lemma sweep_without_detection_returns_initial_witness :
  find_optimal_sensitivity 100 10 20 2 silent_calibrator =
    (Ok (0, 0%Q),
     snd (sweep_trace 2 (range_step5 10 (20 + 1)) silent_calibrator)) /\
  ~ In 0 (range_step5 10 (20 + 1)).
Proof.
  split.
  - apply (proj1 sweep_without_detection_returns_initial 100%Q 10 20 2
             silent_calibrator
             (snd (sweep_trace 2 (range_step5 10 (20 + 1)) silent_calibrator))
             silent_trace).
    + vm_compute. reflexivity.
    + repeat constructor; unfold Qle; simpl; lia.
  - apply (proj2 (proj2 sweep_without_detection_returns_initial) 10 20). lia.
Defined.

(** * Further properties of the driver *)

(** ** Little-endian integers *)

Lemma byte_val_range b : 0 <= byte_val b <= 255.
Proof.
  unfold byte_val. pose proof (Byte.to_N_bounded b). lia.
Qed.

Lemma byte_val_of_Z z : 0 <= z < 256 -> byte_val (byte_of_Z z) = z.
Proof.
  intros Hz. unfold byte_val, byte_of_Z.
  destruct (Byte.of_N (Z.to_N z)) as [b |] eqn:E.
  - apply Byte.to_of_N in E. rewrite E. lia.
  - apply Byte.of_N_None_iff in E. lia.
Qed.

Lemma from_bytes_le_le_digits n : forall x,
  0 <= x < 256 ^ Z.of_nat n -> from_bytes_le (le_digits n x) = x.
Proof.
  induction n as [| n IH]; intros x Hx.
  - simpl in Hx. simpl. lia.
  - cbn [le_digits from_bytes_le].
    rewrite Nat2Z.inj_succ, Z.pow_succ_r in Hx by lia.
    rewrite byte_val_of_Z by (apply Z.mod_pos_bound; lia).
    rewrite IH.
    + pose proof (Z.div_mod x 256). lia.
    + split; [apply Z.div_pos; lia |].
      apply Z.div_lt_upper_bound; lia.
Qed.

Lemma le_digits_length n : forall x, length (le_digits n x) = n.
Proof. induction n; intros x; simpl; auto. Qed.

Lemma from_bytes_le_range bs :
  0 <= from_bytes_le bs < 256 ^ Z.of_nat (length bs).
Proof.
  induction bs as [| b bs IH].
  - simpl. lia.
  - cbn [from_bytes_le length]. rewrite Nat2Z.inj_succ, Z.pow_succ_r by lia.
    pose proof (byte_val_range b). lia.
Qed.

Lemma from_bytes_le_signed_range bs :
  bs <> [] ->
  - 2 ^ (8 * Z.of_nat (length bs) - 1) <= from_bytes_le_signed bs
  < 2 ^ (8 * Z.of_nat (length bs) - 1).
Proof.
  intros Hne. unfold from_bytes_le_signed.
  pose proof (from_bytes_le_range bs) as Hr.
  assert (Hlen : 0 < Z.of_nat (length bs))
    by (destruct bs; [congruence | cbn [length]; lia]).
  replace (256 ^ Z.of_nat (length bs)) with (2 ^ (8 * Z.of_nat (length bs)))
    in Hr by (rewrite Z.pow_mul_r by lia; reflexivity).
  assert (Hhalf : 2 ^ (8 * Z.of_nat (length bs)) =
                  2 * 2 ^ (8 * Z.of_nat (length bs) - 1)).
  { rewrite <- Z.pow_succ_r by lia. f_equal. lia. }
  destruct (Z.eqb_spec (8 * Z.of_nat (length bs)) 0); [lia |].
  destruct (Z.ltb_spec (from_bytes_le bs)
              (2 ^ (8 * Z.of_nat (length bs) - 1))); lia.
Qed.

(** ** Command frames *)

(** X1. When word and value fit the 16-bit length field, [send_command]
    writes exactly one frame and takes exactly one answer from the port;
    the frame is header, length field, word, value and tail, it is 10
    bytes longer than word and value together, and its length field reads
    back, little-endian, as the length of word and value. *)
Theorem send_command_frame_layout (w v : bytes) (h : RadarHandler) :
  Z.of_nat (length w + length v) < 65536 ->
  exists frame,
    serial_tx (snd (send_command w v h)) = serial_tx h ++ [frame] /\
    serial_rx (snd (send_command w v h)) = tl (serial_rx h) /\
    frame = COMMAND_HEADER ++ slice 4 6 frame ++ w ++ v ++ COMMAND_TAIL /\
    from_bytes_le (slice 4 6 frame) = Z.of_nat (length w + length v) /\
    length frame = (10 + length w + length v)%nat.
Proof.
  intros Hlen. rewrite send_command_run by exact Hlen.
  exists (encode_command w v). cbn [snd after_command serial_tx serial_rx].
  assert (Hfield : slice 4 6 (encode_command w v) =
                   le_digits 2 (Z.of_nat (length w + length v))).
  { unfold encode_command, slice. cbn [le_digits COMMAND_HEADER app firstn skipn].
    reflexivity. }
  split; [reflexivity |]. split; [reflexivity |].
  rewrite Hfield. split; [reflexivity |]. split.
  - apply from_bytes_le_le_digits. change (256 ^ Z.of_nat 2) with 65536. lia.
  - unfold encode_command. rewrite !length_app, le_digits_length.
    cbn [length COMMAND_HEADER COMMAND_TAIL]. lia.
Qed.

Lemma send_command_frame_layout_witness :
  exists frame,
    serial_tx (snd (send_command [xfe; x00] [] (RadarHandler_init [] 0))) =
      [] ++ [frame] /\
    from_bytes_le (slice 4 6 frame) = 2.
Proof.
  destruct (send_command_frame_layout [xfe; x00] [] (RadarHandler_init [] 0))
    as (frame & Htx & _ & _ & Hfield & _).
  - simpl. lia.
  - exists frame. split; [exact Htx | exact Hfield].
Defined.

(** X2. When word and value do not fit the 16-bit length field,
    [send_command] raises [OverflowError] before it touches the port:
    nothing is written, no answer is taken, no time passes. *)
Theorem send_command_overflow_writes_nothing (w v : bytes) (h : RadarHandler) :
  65536 <= Z.of_nat (length w + length v) ->
  send_command w v h = (Raise OverflowError, h).
Proof.
  intros Hlen. unfold send_command, bind, lift_result, to_bytes_le.
  destruct (Z.ltb_spec (Z.of_nat (length w + length v)) (256 ^ Z.of_nat 2))
    as [Hlt | Hge].
  - change (256 ^ Z.of_nat 2) with 65536 in Hlt. lia.
  - rewrite andb_false_r. reflexivity.
Qed.

Lemma send_command_overflow_writes_nothing_witness :
  send_command [xff; x00] (repeat x00 (256 * 256)) (RadarHandler_init [] 0) =
  (Raise OverflowError, RadarHandler_init [] 0).
Proof.
  apply send_command_overflow_writes_nothing.
  rewrite repeat_length. cbn [length]. lia.
Defined.

(** ** What the operations return *)

Lemma byte_val_zero b : byte_val b = 0 -> b = x00.
Proof.
  intros H. destruct b; first [reflexivity | vm_compute in H; discriminate H].
Qed.

(** The two status checks of the code agree on what [send_command]
    returns: [len >= 10 and r[8:10] == b'\x00\x00'] and
    [len >= 12 and int.from_bytes(r[8:10]) == 0]. *)
Lemma status_ok_checked r : status_ok (checked_response r) = acknowledged r.
Proof.
  unfold status_ok, checked_response, acknowledged.
  destruct (length r <? 12)%nat eqn:E; [reflexivity |].
  apply Nat.ltb_ge in E.
  replace (10 <=? length r)%nat with true
    by (symmetry; apply Nat.leb_le; lia).
  cbn [negb andb].
  do 8 (destruct r as [| ? r]; [cbn [length] in E; lia |]).
  destruct r as [| b8 r]; [cbn [length] in E; lia |].
  destruct r as [| b9 r]; [cbn [length] in E; lia |].
  unfold slice. cbn [firstn skipn from_bytes_le].
  unfold bytes_eqb. cbn [length Nat.eqb is_prefix andb].
  pose proof (byte_val_range b8). pose proof (byte_val_range b9).
  destruct (Byte.eqb b8 x00) eqn:E8; destruct (Byte.eqb b9 x00) eqn:E9;
    cbn [andb].
  - apply Byte.byte_dec_bl in E8, E9. subst. reflexivity.
  - symmetry. apply Z.eqb_neq. intros Hz.
    apply Byte.eqb_false in E9. apply E9. apply byte_val_zero. lia.
  - symmetry. apply Z.eqb_neq. intros Hz.
    apply Byte.eqb_false in E8. apply E8. apply byte_val_zero. lia.
  - symmetry. apply Z.eqb_neq. intros Hz.
    apply Byte.eqb_false in E8. apply E8. apply byte_val_zero. lia.
Qed.


Lemma enable_engineering_mode_facts h :
  let ok := acknowledged (hd [] (serial_rx h)) &&
            acknowledged (hd [] (tl (serial_rx h))) in
  fst (enable_engineering_mode h) = Ok ok /\
  engineering_mode (snd (enable_engineering_mode h)) =
    engineering_mode h || ok /\
  serial_tx (snd (enable_engineering_mode h)) =
    serial_tx h ++
    ENABLE_CONFIGURATION_FRAME ::
    (if acknowledged (hd [] (serial_rx h))
     then [encode_command [x62; x00] []; END_CONFIGURATION_FRAME]
     else []).
Proof.
  cbv zeta. unfold enable_engineering_mode, bind.
  rewrite enable_configuration_run.
  destruct (acknowledged (hd [] (serial_rx h))); cbn [negb andb].
  - rewrite send_command_run by (simpl; lia).
    cbn [after_command serial_rx hd].
    rewrite <- (acknowledged_checked (hd [] (tl (serial_rx h)))).
    destruct (length (checked_response _) <? 12)%nat.
    + rewrite end_configuration_run. unfold ret.
      cbn [fst snd after_command engineering_mode serial_tx].
      rewrite orb_false_r, <- !app_assoc. auto.
    + destruct (_ =? 0); unfold modify, ret; rewrite end_configuration_run;
        cbn [fst snd after_command set_engineering_mode engineering_mode
             serial_tx];
        rewrite ?orb_true_r, ?orb_false_r, <- !app_assoc; auto.
  - unfold ret. cbn [fst snd after_command engineering_mode serial_tx].
    rewrite orb_false_r. auto.
Qed.

Lemma disable_engineering_mode_facts h :
  let ok := acknowledged (hd [] (serial_rx h)) &&
            (from_bytes_le (slice 8 10 (hd [] (tl (serial_rx h)))) =? 0) in
  fst (disable_engineering_mode h) = Ok ok /\
  engineering_mode (snd (disable_engineering_mode h)) =
    engineering_mode h && negb ok /\
  serial_tx (snd (disable_engineering_mode h)) =
    serial_tx h ++
    ENABLE_CONFIGURATION_FRAME ::
    (if acknowledged (hd [] (serial_rx h))
     then [encode_command [x63; x00] []; END_CONFIGURATION_FRAME]
     else []).
Proof.
  cbv zeta. unfold disable_engineering_mode, bind.
  rewrite enable_configuration_run.
  destruct (acknowledged (hd [] (serial_rx h))); cbn [negb andb].
  - unfold lift_result, serial_write, serial_read_until, modify.
    cbn [to_bytes_le Z.leb Z.ltb andb Z.of_nat Z.pow Z.compare Pos.of_succ_nat
         Pos.succ Z.pow_pos Pos.iter Z.mul Pos.mul Pos.add Pos.compare
         Pos.compare_cont].
    cbn [set_serial_tx serial_rx after_command].
    destruct (tl (serial_rx h)) as [| r rx]; cbn [hd];
      destruct (_ =? 0); unfold ret; rewrite end_configuration_run;
      cbn [fst snd after_command set_engineering_mode set_serial_tx
           set_serial_rx engineering_mode serial_tx negb];
      rewrite ?andb_true_r, ?andb_false_r, <- !app_assoc; auto.
  - unfold ret. cbn [fst snd after_command engineering_mode serial_tx negb].
    rewrite andb_true_r. auto.
Qed.

Lemma configure_sensitivity_facts g m s c :
  fst (configure_sensitivity g m s c) =
    Ok (opens_session (ConfigureSensitivity g m s) c &&
        acknowledged (second_answer c)) /\
  serial_tx (radar (snd (configure_sensitivity g m s c))) =
    serial_tx (radar c) ++
    (if arguments_accepted (ConfigureSensitivity g m s)
     then ENABLE_CONFIGURATION_FRAME ::
          (if opens_session (ConfigureSensitivity g m s) c
           then [encode_command [x64; x00] (parameter_block g m s);
                 END_CONFIGURATION_FRAME]
           else [])
     else []).
Proof.
  rewrite opens_session_unfold. cbn [arguments_accepted].
  unfold configure_sensitivity, second_answer.
  destruct ((0 <=? g) && (g <=? 8)) eqn:Hg; cbn [negb andb];
    [| unfold ret; cbn [fst snd]; rewrite app_nil_r; auto].
  destruct (((0 <=? m) && (m <=? 100)) && ((0 <=? s) && (s <=? 100)))
    eqn:Hargs; cbn [negb andb];
    [| unfold ret; cbn [fst snd]; rewrite app_nil_r; auto].
  apply andb_true_iff in Hargs. destruct Hargs as [Hm Hs].
  apply range_check in Hg, Hm, Hs.
  unfold bind, on_radar. rewrite enable_configuration_run.
  destruct (acknowledged (hd [] (serial_rx (radar c)))); cbn [negb radar andb];
    [| unfold ret; cbn [fst snd radar after_command serial_tx]; auto].
  unfold lift_result.
  rewrite !to_bytes_le_4_small by lia. cbn [radar].
  rewrite send_command_run by (simpl; lia).
  rewrite end_configuration_run. unfold ret.
  cbn [fst snd radar after_command serial_tx serial_rx hd].
  rewrite status_ok_checked, <- !app_assoc. auto.
Qed.

Lemma configure_detection_gates_facts m s c :
  fst (configure_detection_gates m s c) =
    Ok (opens_session (ConfigureDetectionGates m s) c &&
        acknowledged (second_answer c)) /\
  serial_tx (radar (snd (configure_detection_gates m s c))) =
    serial_tx (radar c) ++
    (if arguments_accepted (ConfigureDetectionGates m s)
     then ENABLE_CONFIGURATION_FRAME ::
          (if opens_session (ConfigureDetectionGates m s) c
           then [encode_command [x60; x00] (parameter_block m s 5);
                 END_CONFIGURATION_FRAME]
           else [])
     else []).
Proof.
  rewrite opens_session_unfold. cbn [arguments_accepted].
  unfold configure_detection_gates, second_answer.
  destruct (((1 <=? m) && (m <=? 8)) && ((1 <=? s) && (s <=? 8))) eqn:Hargs;
    cbn [negb andb];
    [| unfold ret; cbn [fst snd]; rewrite app_nil_r; auto].
  apply andb_true_iff in Hargs. destruct Hargs as [Hm Hs].
  apply range_check in Hm, Hs.
  unfold bind, on_radar. rewrite enable_configuration_run.
  destruct (acknowledged (hd [] (serial_rx (radar c)))); cbn [negb radar andb];
    [| unfold ret; cbn [fst snd radar after_command serial_tx]; auto].
  unfold lift_result.
  rewrite !to_bytes_le_4_small by lia. cbn [radar].
  rewrite send_command_run by (simpl; lia).
  rewrite end_configuration_run. unfold ret.
  cbn [fst snd radar after_command serial_tx serial_rx hd].
  rewrite status_ok_checked, <- !app_assoc. auto.
Qed.

Lemma restore_factory_defaults_facts c :
  let opened := acknowledged (hd [] (serial_rx (radar c))) in
  let success := opened && acknowledged (second_answer c) in
  fst (restore_factory_defaults c) = Ok success /\
  serial_tx (radar (snd (restore_factory_defaults c))) =
    serial_tx (radar c) ++
    ENABLE_CONFIGURATION_FRAME ::
    (if opened
     then encode_command [xa2; x00] [] ::
          (if success then [encode_command [xa3; x00] []] else []) ++
          [END_CONFIGURATION_FRAME]
     else []).
Proof.
  cbv zeta. unfold restore_factory_defaults, second_answer, bind, on_radar.
  rewrite enable_configuration_run.
  destruct (acknowledged (hd [] (serial_rx (radar c)))); cbn [negb radar andb];
    [| unfold ret; cbn [fst snd radar after_command serial_tx];
       split; reflexivity].
  rewrite send_command_run by (simpl; lia).
  cbn [after_command serial_rx hd]. rewrite status_ok_checked.
  destruct (acknowledged (hd [] (tl (serial_rx (radar c))))); cbn [radar].
  - rewrite send_command_run by (simpl; lia).
    unfold sleep, modify. cbn [radar].
    rewrite end_configuration_run. unfold ret.
    cbn [fst snd radar after_command set_clock serial_tx app].
    rewrite <- !app_assoc. split; reflexivity.
  - unfold ret. cbn [radar]. rewrite end_configuration_run.
    cbn [fst snd radar after_command serial_tx app].
    rewrite <- !app_assoc. split; reflexivity.
Qed.

Lemma backup_settings_facts c :
  let opened := acknowledged (hd [] (serial_rx (radar c))) in
  let response := checked_response (second_answer c) in
  let stored :=
    if opened && (30 <=? length response)%nat
    then Some (slice 8 (length response - 4) response)
    else original_settings c in
  fst (backup_settings c) = Ok (opened && truthy stored) /\
  original_settings (snd (backup_settings c)) = stored /\
  serial_tx (radar (snd (backup_settings c))) =
    serial_tx (radar c) ++
    ENABLE_CONFIGURATION_FRAME ::
    (if opened
     then [encode_command [x61; x00] []; END_CONFIGURATION_FRAME]
     else []).
Proof.
  cbv zeta. unfold backup_settings, second_answer, bind, on_radar.
  rewrite enable_configuration_run.
  destruct (acknowledged (hd [] (serial_rx (radar c)))); cbn [negb radar andb];
    [| unfold ret; cbn [fst snd radar after_command serial_tx
                        original_settings]; auto].
  rewrite send_command_run by (simpl; lia).
  cbn [after_command serial_rx hd].
  destruct (30 <=? length (checked_response _))%nat;
    unfold set_original_settings, modify, ret, get; cbn [radar];
    rewrite end_configuration_run;
    cbn [fst snd radar after_command serial_tx original_settings];
    rewrite <- !app_assoc; auto.
Qed.

(** X3. An operation whose arguments fail its range check returns [False]
    and leaves the calibrator exactly as it was: nothing is written, no
    answer is taken, no time passes. *)
Theorem rejected_arguments_touch_nothing (op : operation) (c : RadarCalibrator) :
  arguments_accepted op = false -> run_operation op c = (Ok false, c).
Proof.
  intros Hargs. destruct op; cbn [arguments_accepted] in Hargs;
    try discriminate Hargs; cbn [run_operation].
  - unfold configure_detection_gates. rewrite Hargs. reflexivity.
  - unfold configure_sensitivity.
    destruct ((0 <=? gate) && (gate <=? 8)); [| reflexivity].
    cbn [andb] in Hargs. rewrite Hargs. reflexivity.
Qed.

Lemma rejected_arguments_touch_nothing_witness :
  run_operation (ConfigureDetectionGates 0 9) silent_calibrator =
  (Ok false, silent_calibrator).
Proof.
  apply (rejected_arguments_touch_nothing (ConfigureDetectionGates 0 9)).
  reflexivity.
Defined.

(** X4. An operation that sends its command through [send_command]
    returns [True] exactly when its session was opened and the answer to
    its own command has at least 12 bytes and status zero; the answer to
    the closing [end_configuration] has no influence on the result. *)
Theorem operation_reports_command_status (op : operation) (c : RadarCalibrator) :
  reports_status op = true ->
  fst (run_operation op c) =
  Ok (opens_session op c && acknowledged (second_answer c)).
Proof.
  intros Hop. destruct op; try discriminate Hop; cbn [run_operation].
  - rewrite opens_session_unfold. cbn [arguments_accepted andb].
    unfold on_radar, second_answer.
    pose proof (enable_engineering_mode_facts (radar c)) as (Hres & _).
    destruct (enable_engineering_mode (radar c)). exact Hres.
  - rewrite opens_session_unfold. cbn [arguments_accepted andb].
    apply restore_factory_defaults_facts.
  - apply configure_detection_gates_facts.
  - apply configure_sensitivity_facts.
Qed.

Lemma operation_reports_command_status_witness :
  fst (run_operation (ConfigureSensitivity 3 50 50)
         (RadarCalibrator_init [ack xff x00; ack x64 x00] 0)) = Ok true.
Proof.
  apply (operation_reports_command_status (ConfigureSensitivity 3 50 50)
           (RadarCalibrator_init [ack xff x00; ack x64 x00] 0)).
  reflexivity.
Defined.

(** X5. [enable_engineering_mode] sets the engineering-mode flag exactly
    when it returns [True] and [disable_engineering_mode] clears it exactly
    when it returns [True]; a call that returns [False] leaves the flag as
    it was, and neither call raises. *)
Theorem engineering_flag_follows_result (h : RadarHandler) :
  (exists enabled,
     fst (enable_engineering_mode h) = Ok enabled /\
     engineering_mode (snd (enable_engineering_mode h)) =
       engineering_mode h || enabled) /\
  (exists disabled,
     fst (disable_engineering_mode h) = Ok disabled /\
     engineering_mode (snd (disable_engineering_mode h)) =
       engineering_mode h && negb disabled).
Proof.
  split.
  - destruct (enable_engineering_mode_facts h) as (Hres & Hflag & _).
    eexists. split; [exact Hres | exact Hflag].
  - destruct (disable_engineering_mode_facts h) as (Hres & Hflag & _).
    eexists. split; [exact Hres | exact Hflag].
Qed.

(** X6. No operation raises: the integers handed to [to_bytes] always pass
    the range check first, so every call returns a boolean. *)
Theorem operations_never_raise (op : operation) (c : RadarCalibrator) :
  exists result, fst (run_operation op c) = Ok result.
Proof.
  destruct op; cbn [run_operation].
  - unfold on_radar.
    pose proof (enable_engineering_mode_facts (radar c)) as (Hres & _).
    destruct (enable_engineering_mode (radar c)). eexists. exact Hres.
  - unfold on_radar.
    pose proof (disable_engineering_mode_facts (radar c)) as (Hres & _).
    destruct (disable_engineering_mode (radar c)). eexists. exact Hres.
  - eexists. apply backup_settings_facts.
  - eexists. apply restore_factory_defaults_facts.
  - eexists. apply configure_detection_gates_facts.
  - eexists. apply configure_sensitivity_facts.
Qed.

Lemma skipn_length_app {A} (l l' : list A) : skipn (length l) (l ++ l') = l'.
Proof.
  rewrite skipn_app, skipn_all, Nat.sub_diag. reflexivity.
Qed.

(** X7. The frames of an operation are bracketed: when the arguments pass,
    the first frame written is the enter-configuration frame; when the
    session opens, the last one is the end-configuration frame and the one
    or two frames in between are neither of the two; when the session does
    not open, nothing follows the enter-configuration frame. *)
Theorem session_brackets_commands (op : operation) (c : RadarCalibrator) :
  exists commands,
    frames_written c (snd (run_operation op c)) =
      (if arguments_accepted op
       then ENABLE_CONFIGURATION_FRAME ::
            (if opens_session op c
             then commands ++ [END_CONFIGURATION_FRAME]
             else [])
       else []) /\
    (1 <= length commands <= 2)%nat /\
    Forall (fun frame => frame <> ENABLE_CONFIGURATION_FRAME /\
                         frame <> END_CONFIGURATION_FRAME) commands.
Proof.
  unfold frames_written. rewrite opens_session_unfold.
  destruct op; cbn [run_operation arguments_accepted andb].
  - exists [encode_command [x62; x00] []].
    unfold on_radar.
    pose proof (enable_engineering_mode_facts (radar c)) as (_ & _ & Htx).
    destruct (enable_engineering_mode (radar c)) as [r h'].
    cbn [snd radar] in *. rewrite Htx, skipn_length_app.
    split; [destruct (acknowledged _); reflexivity |].
    split; [cbn; lia |]. repeat constructor; discriminate.
  - exists [encode_command [x63; x00] []].
    unfold on_radar.
    pose proof (disable_engineering_mode_facts (radar c)) as (_ & _ & Htx).
    destruct (disable_engineering_mode (radar c)) as [r h'].
    cbn [snd radar] in *. rewrite Htx, skipn_length_app.
    split; [destruct (acknowledged _); reflexivity |].
    split; [cbn; lia |]. repeat constructor; discriminate.
  - exists [encode_command [x61; x00] []].
    pose proof (backup_settings_facts c) as (_ & _ & Htx).
    rewrite Htx, skipn_length_app.
    split; [destruct (acknowledged _); reflexivity |].
    split; [cbn; lia |]. repeat constructor; discriminate.
  - pose proof (restore_factory_defaults_facts c) as (_ & Htx).
    cbv zeta in Htx. rewrite Htx, skipn_length_app.
    exists (encode_command [xa2; x00] [] ::
            (if acknowledged (hd [] (serial_rx (radar c))) &&
                acknowledged (second_answer c)
             then [encode_command [xa3; x00] []] else [])).
    split; [destruct (acknowledged (hd [] (serial_rx (radar c)))); reflexivity |].
    destruct (_ && _); (split; [cbn; lia |]); repeat constructor; discriminate.
  - pose proof (configure_detection_gates_facts moving_gate static_gate c)
      as (_ & Htx).
    rewrite opens_session_unfold in Htx. cbn [arguments_accepted] in Htx.
    rewrite Htx, skipn_length_app.
    exists [encode_command [x60; x00]
              (parameter_block moving_gate static_gate 5)].
    split; [destruct (_ && _); [destruct (acknowledged _) |]; reflexivity |].
    split; [cbn; lia |].
    repeat constructor; intros E; apply (f_equal (@length byte)) in E;
      discriminate E.
  - pose proof (configure_sensitivity_facts gate motion_sensitivity
                  static_sensitivity c) as (_ & Htx).
    rewrite opens_session_unfold in Htx. cbn [arguments_accepted] in Htx.
    rewrite Htx, skipn_length_app.
    exists [encode_command [x64; x00]
              (parameter_block gate motion_sensitivity static_sensitivity)].
    split; [destruct (_ && _); [destruct (acknowledged _) |]; reflexivity |].
    split; [cbn; lia |].
    repeat constructor; intros E; apply (f_equal (@length byte)) in E;
      discriminate E.
Qed.

(** X8. [restore_factory_defaults] sends the restart command exactly when
    the session was opened and the reset command was acknowledged: the
    frames it writes are enter, reset, restart and end in that case, enter,
    reset and end when the reset is not acknowledged, and the enter frame
    alone when the session does not open. *)
Theorem restart_follows_acknowledged_reset (c : RadarCalibrator) :
  let opened := acknowledged (hd [] (serial_rx (radar c))) in
  let success := opened && acknowledged (second_answer c) in
  fst (restore_factory_defaults c) = Ok success /\
  frames_written c (snd (restore_factory_defaults c)) =
    ENABLE_CONFIGURATION_FRAME ::
    (if opened
     then encode_command [xa2; x00] [] ::
          (if success then [encode_command [xa3; x00] []] else []) ++
          [END_CONFIGURATION_FRAME]
     else []).
Proof.
  cbv zeta. unfold frames_written.
  destruct (restore_factory_defaults_facts c) as (Hres & Htx).
  cbv zeta in Hres, Htx. rewrite Hres, Htx, skipn_length_app.
  split; reflexivity.
Qed.

Lemma parameter_block_fields a b c :
  0 <= a < 2 ^ 32 -> 0 <= b < 2 ^ 32 -> 0 <= c < 2 ^ 32 ->
  length (parameter_block a b c) = 18%nat /\
  from_bytes_le (slice 0 2 (parameter_block a b c)) = 0 /\
  from_bytes_le (slice 2 6 (parameter_block a b c)) = a /\
  from_bytes_le (slice 6 8 (parameter_block a b c)) = 1 /\
  from_bytes_le (slice 8 12 (parameter_block a b c)) = b /\
  from_bytes_le (slice 12 14 (parameter_block a b c)) = 2 /\
  from_bytes_le (slice 14 18 (parameter_block a b c)) = c.
Proof.
  intros Ha Hb Hc.
  change (2 ^ 32) with (256 ^ Z.of_nat 4) in *.
  split; [reflexivity |]. split; [reflexivity |].
  split; [change (slice 2 6 (parameter_block a b c)) with (le_digits 4 a);
          apply from_bytes_le_le_digits; exact Ha |].
  split; [reflexivity |].
  split; [change (slice 8 12 (parameter_block a b c)) with (le_digits 4 b);
          apply from_bytes_le_le_digits; exact Hb |].
  split; [reflexivity |].
  change (slice 14 18 (parameter_block a b c)) with (le_digits 4 c).
  apply from_bytes_le_le_digits. exact Hc.
Qed.

(** X9. When its session opens, [configure_sensitivity] writes the enter
    frame, one set-sensitivity frame (command word 0x0064) and the end
    frame; the 18-byte value of the command reads back, little-endian, as
    parameter 0 = gate, parameter 1 = motion sensitivity and parameter
    2 = static sensitivity. *)
Theorem configure_sensitivity_encodes_parameters
    (gate motion static : Z) (c : RadarCalibrator) :
  opens_session (ConfigureSensitivity gate motion static) c = true ->
  exists value,
    frames_written c (snd (configure_sensitivity gate motion static c)) =
      [ENABLE_CONFIGURATION_FRAME; encode_command [x64; x00] value;
       END_CONFIGURATION_FRAME] /\
    length value = 18%nat /\
    from_bytes_le (slice 0 2 value) = 0 /\
    from_bytes_le (slice 2 6 value) = gate /\
    from_bytes_le (slice 6 8 value) = 1 /\
    from_bytes_le (slice 8 12 value) = motion /\
    from_bytes_le (slice 12 14 value) = 2 /\
    from_bytes_le (slice 14 18 value) = static.
Proof.
  intros Hopen.
  destruct (configure_sensitivity_facts gate motion static c) as (_ & Htx).
  rewrite Hopen in Htx.
  assert (Hargs : arguments_accepted (ConfigureSensitivity gate motion static)
                  = true)
    by (unfold opens_session in Hopen; apply andb_true_iff in Hopen;
        apply Hopen).
  rewrite Hargs in Htx.
  cbn [arguments_accepted] in Hargs.
  rewrite !andb_true_iff, !Z.leb_le in Hargs.
  exists (parameter_block gate motion static). split.
  - unfold frames_written. rewrite Htx, skipn_length_app. reflexivity.
  - apply parameter_block_fields; lia.
Qed.

Lemma configure_sensitivity_encodes_parameters_witness :
  exists value,
    frames_written (RadarCalibrator_init [ack xff x00] 0)
      (snd (configure_sensitivity 8 100 0
              (RadarCalibrator_init [ack xff x00] 0))) =
      [ENABLE_CONFIGURATION_FRAME; encode_command [x64; x00] value;
       END_CONFIGURATION_FRAME] /\
    from_bytes_le (slice 2 6 value) = 8 /\
    from_bytes_le (slice 8 12 value) = 100 /\
    from_bytes_le (slice 14 18 value) = 0.
Proof.
  destruct (configure_sensitivity_encodes_parameters 8 100 0
              (RadarCalibrator_init [ack xff x00] 0))
    as (value & Htx & _ & _ & Hg & _ & Hm & _ & Hs); [reflexivity |].
  exists value. auto.
Defined.

(** X10. When its session opens, [configure_detection_gates] writes the
    enter frame, one set-max-gates frame (command word 0x0060) and the end
    frame; the 18-byte value reads back as parameter 0 = moving gate,
    parameter 1 = static gate and parameter 2 = 5, the no-one delay in
    seconds. *)
Theorem configure_detection_gates_encodes_parameters
    (moving_gate static_gate : Z) (c : RadarCalibrator) :
  opens_session (ConfigureDetectionGates moving_gate static_gate) c = true ->
  exists value,
    frames_written c
      (snd (configure_detection_gates moving_gate static_gate c)) =
      [ENABLE_CONFIGURATION_FRAME; encode_command [x60; x00] value;
       END_CONFIGURATION_FRAME] /\
    length value = 18%nat /\
    from_bytes_le (slice 0 2 value) = 0 /\
    from_bytes_le (slice 2 6 value) = moving_gate /\
    from_bytes_le (slice 6 8 value) = 1 /\
    from_bytes_le (slice 8 12 value) = static_gate /\
    from_bytes_le (slice 12 14 value) = 2 /\
    from_bytes_le (slice 14 18 value) = 5.
Proof.
  intros Hopen.
  destruct (configure_detection_gates_facts moving_gate static_gate c)
    as (_ & Htx).
  rewrite Hopen in Htx.
  assert (Hargs : arguments_accepted
                    (ConfigureDetectionGates moving_gate static_gate) = true)
    by (unfold opens_session in Hopen; apply andb_true_iff in Hopen;
        apply Hopen).
  rewrite Hargs in Htx.
  cbn [arguments_accepted] in Hargs.
  rewrite !andb_true_iff, !Z.leb_le in Hargs.
  exists (parameter_block moving_gate static_gate 5). split.
  - unfold frames_written. rewrite Htx, skipn_length_app. reflexivity.
  - apply parameter_block_fields; lia.
Qed.

Lemma configure_detection_gates_encodes_parameters_witness :
  exists value,
    frames_written (RadarCalibrator_init [ack xff x00] 0)
      (snd (configure_detection_gates 8 1
              (RadarCalibrator_init [ack xff x00] 0))) =
      [ENABLE_CONFIGURATION_FRAME; encode_command [x60; x00] value;
       END_CONFIGURATION_FRAME] /\
    from_bytes_le (slice 2 6 value) = 8 /\
    from_bytes_le (slice 8 12 value) = 1 /\
    from_bytes_le (slice 14 18 value) = 5.
Proof.
  destruct (configure_detection_gates_encodes_parameters 8 1
              (RadarCalibrator_init [ack xff x00] 0))
    as (value & Htx & _ & _ & Hm & _ & Hs & _ & Hn); [reflexivity |].
  exists value. auto.
Defined.

(** X11. Once a non-empty backup is stored, [backup_settings] never erases
    it and returns [True] whenever its session opens, whatever the port
    answers to the read-parameters command, a timeout included. *)
Theorem backup_settings_keeps_earlier_backup (c : RadarCalibrator) :
  truthy (original_settings c) = true ->
  truthy (original_settings (snd (backup_settings c))) = true /\
  fst (backup_settings c) = Ok (acknowledged (hd [] (serial_rx (radar c)))).
Proof.
  intros Hstored.
  destruct (backup_settings_facts c) as (Hres & Hset & _).
  cbv zeta in Hres, Hset.
  assert (Hkept :
    truthy (if acknowledged (hd [] (serial_rx (radar c))) &&
               (30 <=? length (checked_response (second_answer c)))%nat
            then Some (slice 8 (length (checked_response (second_answer c)) - 4)
                         (checked_response (second_answer c)))
            else original_settings c) = true).
  { destruct (acknowledged (hd [] (serial_rx (radar c))) &&
              (30 <=? length (checked_response (second_answer c)))%nat) eqn:E;
      [| exact Hstored].
    apply andb_true_iff in E. destruct E as [_ E]. apply Nat.leb_le in E.
    assert (Hlen : (0 < length (slice 8
                      (length (checked_response (second_answer c)) - 4)
                      (checked_response (second_answer c))))%nat)
      by (unfold slice; rewrite length_skipn, length_firstn; lia).
    destruct (slice _ _ _); [cbn [length] in Hlen; lia | reflexivity]. }
  rewrite Hres, Hset, Hkept, andb_true_r. auto.
Qed.

Lemma backup_settings_keeps_earlier_backup_witness :
  fst (backup_settings (calibrator_with_backup [ack xff x00])) = Ok true.
Proof.
  apply (backup_settings_keeps_earlier_backup
           (calibrator_with_backup [ack xff x00])).
  reflexivity.
Defined.

(** X12. [backup_settings] does not look at the status field: when its
    session opens and the answer to the read-parameters command has at
    least 30 bytes, the bytes from offset 8 up to the 4-byte tail are
    stored as the backup, 12 fewer than the answer, and the call returns
    [True], even for an answer whose status is not zero. *)
Theorem backup_settings_stores_any_long_answer (c : RadarCalibrator) :
  acknowledged (hd [] (serial_rx (radar c))) = true ->
  (30 <= length (second_answer c))%nat ->
  exists stored,
    original_settings (snd (backup_settings c)) = Some stored /\
    stored = slice 8 (length (second_answer c) - 4) (second_answer c) /\
    length stored = (length (second_answer c) - 12)%nat /\
    fst (backup_settings c) = Ok true.
Proof.
  intros Hopen Hlen.
  destruct (backup_settings_facts c) as (Hres & Hset & _).
  cbv zeta in Hres, Hset. rewrite Hopen in Hres, Hset. cbn [andb] in Hres, Hset.
  assert (Hchecked : checked_response (second_answer c) = second_answer c).
  { unfold checked_response.
    destruct (Nat.ltb_spec (length (second_answer c)) 12); [lia | reflexivity]. }
  rewrite Hchecked in Hres, Hset.
  replace (30 <=? length (second_answer c))%nat with true in Hres, Hset
    by (symmetry; apply Nat.leb_le; exact Hlen).
  exists (slice 8 (length (second_answer c) - 4) (second_answer c)).
  split; [exact Hset |]. split; [reflexivity |].
  assert (Hl : length (slice 8 (length (second_answer c) - 4) (second_answer c))
               = (length (second_answer c) - 12)%nat)
    by (unfold slice; rewrite length_skipn, length_firstn; lia).
  split; [exact Hl |].
  rewrite Hres. f_equal.
  destruct (slice _ _ _); [cbn [length] in Hl; lia | reflexivity].
Qed.

Lemma backup_settings_stores_any_long_answer_witness :
  acknowledged refused_parameters = false /\
  fst (backup_settings
         (RadarCalibrator_init [ack xff x00; refused_parameters] 0)) = Ok true.
Proof.
  split; [reflexivity |].
  destruct (backup_settings_stores_any_long_answer
              (RadarCalibrator_init [ack xff x00; refused_parameters] 0))
    as (stored & _ & _ & _ & Hres).
  - reflexivity.
  - cbn. lia.
  - exact Hres.
Defined.

(** ** Report frames *)

Lemma target_data_length line :
  length (slice 8 (length line - 6) line) = (length line - 14)%nat.
Proof. unfold slice. rewrite length_skipn, length_firstn. lia. Qed.

Lemma basic_data_of_line line :
  (23 <= length line)%nat ->
  firstn 9 (slice 8 (length line - 6) line) = slice 8 17 line.
Proof.
  intros H. unfold slice.
  rewrite firstn_skipn_comm, firstn_firstn. f_equal. f_equal. lia.
Qed.

Lemma slice_of_basic_data i j line :
  (j <= 9)%nat ->
  slice i j (slice 8 17 line) = slice (8 + i) (8 + j) line.
Proof.
  intros H. unfold slice.
  rewrite firstn_skipn_comm, firstn_firstn, skipn_skipn.
  f_equal; [lia |]. f_equal. lia.
Qed.

(** A line of fewer than 23 bytes decodes to nothing. *)
Lemma decode_reading_short eng now line :
  (length line < 23)%nat -> decode_reading eng now line = Ok None.
Proof.
  intros H. unfold decode_reading.
  destruct (negb _); [reflexivity |].
  rewrite target_data_length.
  replace (length line - 14 <? 9)%nat with true
    by (symmetry; apply Nat.ltb_lt; lia).
  reflexivity.
Qed.

(** What a decoded reading is made of, by offsets into the line. *)
Lemma decode_reading_fields eng now line r :
  decode_reading eng now line = Ok (Some r) ->
  (23 <= length line)%nat /\
  timestamp r = now /\
  target_state r = _parse_target_state (from_bytes_le (slice 8 9 line)) /\
  moving_target_distance r = from_bytes_le_signed (slice 9 11 line) /\
  moving_target_energy r = from_bytes_le_signed (slice 11 12 line) /\
  static_target_distance r = from_bytes_le_signed (slice 12 14 line) /\
  static_target_energy r = from_bytes_le_signed (slice 14 15 line) /\
  detection_distance r = Z.abs (from_bytes_le_signed (slice 15 17 line)) /\
  (eng = false -> engineering_data r = None).
Proof.
  unfold decode_reading. destruct (negb _); [discriminate |].
  rewrite target_data_length.
  destruct (Nat.ltb_spec (length line - 14) 9) as [Hlt | Hge]; [discriminate |].
  assert (Hlen : (23 <= length line)%nat) by lia.
  rewrite basic_data_of_line by exact Hlen.
  rewrite !slice_of_basic_data by lia. cbn [Nat.add].
  assert (Hstate : exists b, slice 8 17 line = b :: skipn 9 (firstn 17 line) /\
                             slice 8 9 line = [b]).
  { unfold slice.
    assert (H17 : length (firstn 17 line) = 17%nat)
      by (rewrite length_firstn; lia).
    assert (H9 : length (firstn 9 line) = 9%nat)
      by (rewrite length_firstn; lia).
    exists (nth 8 line x00). split.
    - rewrite (skipn_nth_cons x00 (firstn 17 line) 8) by lia.
      f_equal. rewrite nth_firstn. reflexivity.
    - rewrite (skipn_nth_cons x00 (firstn 9 line) 8) by lia.
      rewrite nth_firstn. cbn [Nat.ltb Nat.leb].
      rewrite skipn_all2 by lia. reflexivity. }
  destruct Hstate as (b & Hbasic & Hb).
  rewrite Hb. unfold index at 1. rewrite Hbasic. cbn [nth_error from_bytes_le].
  replace (byte_val b + 256 * 0) with (byte_val b) by lia.
  destruct eng; cbn [andb].
  - destruct (9 <? length line - 14)%nat.
    + destruct (parse_engineering _) as [e | x]; [| discriminate].
      intros [= <-]. cbn. repeat split; auto. discriminate.
    + intros [= <-]. cbn. repeat split; auto.
  - intros [= <-]. cbn. repeat split; auto.
Qed.

(** X13. A line of fewer than 23 bytes, the empty line of a read timeout
    included, makes [read_frame] return [None] and leaves the history
    buffer as it was. *)
Theorem short_line_yields_nothing (h : RadarHandler) :
  (length (hd [] (serial_rx h)) < 23)%nat ->
  fst (read_frame h) = Ok None /\
  readings_buffer (snd (read_frame h)) = readings_buffer h.
Proof.
  intros Hshort. rewrite read_frame_run. unfold next_decoded.
  rewrite decode_reading_short by exact Hshort. cbn [fst snd].
  split; [reflexivity |].
  unfold after_read. destruct (serial_rx h); reflexivity.
Qed.

Lemma short_line_yields_nothing_witness :
  fst (read_frame (RadarHandler_init [] 0)) = Ok None.
Proof.
  apply (short_line_yields_nothing (RadarHandler_init [] 0)).
  cbn. lia.
Defined.

(** X14. The fields of a decoded reading come from fixed offsets of the
    line, whatever follows them: the state from byte 8, the moving distance
    from bytes 9-10 and its energy from byte 11, the static distance from
    bytes 12-13 and its energy from byte 14, all signed little-endian, and
    the detection distance is the magnitude of the signed bytes 15-16; the
    line has at least 23 bytes and the timestamp is the time of the call. *)
Theorem decoded_fields_by_offset
    (eng : bool) (now : Z) (line : bytes) (r : RadarReading) :
  decode_reading eng now line = Ok (Some r) ->
  (23 <= length line)%nat /\
  timestamp r = now /\
  target_state r = _parse_target_state (from_bytes_le (slice 8 9 line)) /\
  moving_target_distance r = from_bytes_le_signed (slice 9 11 line) /\
  moving_target_energy r = from_bytes_le_signed (slice 11 12 line) /\
  static_target_distance r = from_bytes_le_signed (slice 12 14 line) /\
  static_target_energy r = from_bytes_le_signed (slice 14 15 line) /\
  detection_distance r = Z.abs (from_bytes_le_signed (slice 15 17 line)).
Proof.
  intros H. apply decode_reading_fields in H.
  repeat match goal with H : _ /\ _ |- _ => destruct H end.
  repeat split; assumption.
Qed.

Lemma decoded_fields_by_offset_witness :
  exists r,
    decode_reading false 7 (report_frame moving_target_data) = Ok (Some r) /\
    target_state r = MOVING_TARGET /\
    moving_target_distance r = 100 /\
    moving_target_energy r = 50 /\
    detection_distance r = 100.
Proof.
  eexists. split; [vm_compute; reflexivity |].
  destruct (decoded_fields_by_offset false 7 (report_frame moving_target_data)
              {| timestamp := 7; target_state := MOVING_TARGET;
                 moving_target_distance := 100; moving_target_energy := 50;
                 static_target_distance := 0; static_target_energy := 0;
                 detection_distance := 100; engineering_data := None |})
    as (_ & _ & Hs & Hd & He & _ & _ & Hdd); [vm_compute; reflexivity |].
  repeat split; reflexivity.
Defined.

Lemma slice_length i j (line : bytes) :
  (j <= length line)%nat -> length (slice i j line) = (j - i)%nat.
Proof. intros H. unfold slice. rewrite length_skipn, length_firstn. lia. Qed.

Lemma signed_byte_range bs :
  length bs = 1%nat -> -128 <= from_bytes_le_signed bs <= 127.
Proof.
  intros H. assert (Hne : bs <> []) by (intros E; subst; discriminate).
  pose proof (from_bytes_le_signed_range bs Hne) as Hr. rewrite H in Hr.
  change (2 ^ (8 * Z.of_nat 1 - 1)) with 128 in Hr. lia.
Qed.

Lemma signed_word_range bs :
  length bs = 2%nat -> -32768 <= from_bytes_le_signed bs <= 32767.
Proof.
  intros H. assert (Hne : bs <> []) by (intros E; subst; discriminate).
  pose proof (from_bytes_le_signed_range bs Hne) as Hr. rewrite H in Hr.
  change (2 ^ (8 * Z.of_nat 2 - 1)) with 32768 in Hr. lia.
Qed.

(** X15. Every decoded reading has a detection distance between 0 and
    32768, target distances between -32768 and 32767 and energies between
    -128 and 127; outside engineering mode it carries no engineering
    data. *)
Theorem decoded_reading_ranges
    (eng : bool) (now : Z) (line : bytes) (r : RadarReading) :
  decode_reading eng now line = Ok (Some r) ->
  0 <= detection_distance r <= 32768 /\
  -32768 <= moving_target_distance r <= 32767 /\
  -32768 <= static_target_distance r <= 32767 /\
  -128 <= moving_target_energy r <= 127 /\
  -128 <= static_target_energy r <= 127 /\
  (if eng then True else engineering_data r = None).
Proof.
  intros H. apply decode_reading_fields in H.
  destruct H as (Hlen & _ & _ & Hmd & Hme & Hsd & Hse & Hdd & Heng).
  pose proof (signed_word_range (slice 9 11 line)
                (slice_length 9 11 line ltac:(lia))) as H1.
  pose proof (signed_byte_range (slice 11 12 line)
                (slice_length 11 12 line ltac:(lia))) as H2.
  pose proof (signed_word_range (slice 12 14 line)
                (slice_length 12 14 line ltac:(lia))) as H3.
  pose proof (signed_byte_range (slice 14 15 line)
                (slice_length 14 15 line ltac:(lia))) as H4.
  pose proof (signed_word_range (slice 15 17 line)
                (slice_length 15 17 line ltac:(lia))) as H5.
  rewrite Hmd, Hme, Hsd, Hse, Hdd.
  repeat split; try lia.
  destruct eng; [exact I | apply Heng; reflexivity].
Qed.

Lemma decoded_reading_ranges_witness :
  exists r,
    decode_reading false 0 (report_frame moving_target_data) = Ok (Some r) /\
    0 <= detection_distance r <= 32768.
Proof.
  eexists. split; [vm_compute; reflexivity |].
  apply (decoded_reading_ranges false 0 (report_frame moving_target_data)).
  vm_compute. reflexivity.
Defined.

(** X16. In engineering mode a frame with exactly one byte after the nine
    bytes of basic data is lost: reading the second gate count raises
    [IndexError], [read_frame] swallows it, returns [None] and buffers
    nothing, although the same line decodes to a reading outside
    engineering mode. *)
Theorem one_extra_byte_drops_frame (h : RadarHandler) :
  engineering_mode h = true ->
  bytes_in REPORT_HEADER (hd [] (serial_rx h)) = true ->
  bytes_in REPORT_TAIL (hd [] (serial_rx h)) = true ->
  length (hd [] (serial_rx h)) = 24%nat ->
  next_decoded h = Raise IndexError /\
  fst (read_frame h) = Ok None /\
  readings_buffer (snd (read_frame h)) = readings_buffer h /\
  exists r, decode_reading false (clock h) (hd [] (serial_rx h)) = Ok (Some r).
Proof.
  intros Heng Hhead Htail Hlen.
  assert (Hdecode : next_decoded h = Raise IndexError).
  { unfold next_decoded, decode_reading.
    rewrite Heng, Hhead, Htail. cbn [andb negb].
    set (line := hd [] (serial_rx h)) in *.
    assert (Htd : length (slice 8 (length line - 6) line) = 10%nat)
      by (rewrite target_data_length, Hlen; reflexivity).
    set (target_data := slice 8 (length line - 6) line) in *.
    rewrite Htd. cbn [Nat.ltb Nat.leb].
    assert (Hone : length (skipn 9 target_data) = 1%nat)
      by (rewrite length_skipn, Htd; reflexivity).
    destruct (skipn 9 target_data) as [| b [| b' l]]; try discriminate Hone.
    reflexivity. }
  split; [exact Hdecode |].
  rewrite read_frame_run, Hdecode. cbn [fst snd].
  split; [reflexivity |].
  split; [unfold after_read; destruct (serial_rx h); reflexivity |].
  unfold decode_reading. rewrite Hhead, Htail. cbn [andb negb].
  assert (Htd : length (slice 8 (length (hd [] (serial_rx h)) - 6)
                          (hd [] (serial_rx h))) = 10%nat)
    by (rewrite target_data_length, Hlen; reflexivity).
  set (target_data := slice 8 (length (hd [] (serial_rx h)) - 6)
                        (hd [] (serial_rx h))) in *.
  rewrite Htd. cbn [Nat.ltb Nat.leb].
  destruct (index _ 0) as [state_byte | x] eqn:E; [eexists; reflexivity |].
  exfalso. unfold index in E.
  destruct (nth_error _ 0) eqn:En; [discriminate |].
  apply nth_error_None in En. rewrite length_firstn, Htd in En.
  cbn in En. lia.
Qed.

Lemma one_extra_byte_drops_frame_witness :
  fst (read_frame (handler_reading true one_extra_byte_frame)) = Ok None /\
  exists r,
    fst (read_frame (handler_reading false one_extra_byte_frame)) =
    Ok (Some r).
Proof.
  split.
  - apply (one_extra_byte_drops_frame
             (handler_reading true one_extra_byte_frame)); reflexivity.
  - eexists. vm_compute. reflexivity.
Defined.

(** X17. When the engineering payload carries all the gate bytes it
    declares, the decoded lists have exactly [max_moving_gate + 1] and
    [max_static_gate + 1] entries, and every entry is a byte value. *)
Theorem complete_payload_has_declared_gates (mm ms : byte) (rest : bytes) :
  byte_val mm + 1 + (byte_val ms + 1) <= Z.of_nat (length rest) ->
  exists e,
    parse_engineering (mm :: ms :: rest) = Ok e /\
    Z.of_nat (length (moving_energy_gates e)) = max_moving_distance_gate e + 1 /\
    Z.of_nat (length (static_energy_gates e)) = max_static_distance_gate e + 1 /\
    Forall (fun v => 0 <= v <= 255)
           (moving_energy_gates e ++ static_energy_gates e).
Proof.
  intros Hlen. eexists. split; [apply parse_engineering_run |].
  cbn [moving_energy_gates static_energy_gates max_moving_distance_gate
       max_static_distance_gate].
  pose proof (byte_val_range mm). pose proof (byte_val_range ms).
  rewrite !length_map, !length_firstn, length_skipn.
  split; [lia |]. split; [lia |].
  rewrite <- map_app. apply Forall_forall. intros v Hv.
  apply in_map_iff in Hv. destruct Hv as (b & <- & _). apply byte_val_range.
Qed.

Lemma complete_payload_has_declared_gates_witness :
  exists e,
    parse_engineering [x01; x00; x0a; x14; x1e] = Ok e /\
    moving_energy_gates e = [10; 20] /\
    static_energy_gates e = [30].
Proof.
  destruct (complete_payload_has_declared_gates x01 x00 [x0a; x14; x1e])
    as (e & He & _); [vm_compute; discriminate |].
  exists e. split; [exact He |].
  vm_compute in He. injection He as <-. split; reflexivity.
Defined.

(** ** Analytics on the history buffer *)

Lemma state_in_moving s :
  state_in s [MOVING_TARGET; BOTH_TARGETS] = true <->
  s = MOVING_TARGET \/ s = BOTH_TARGETS.
Proof. destruct s; cbn; split; intros H; intuition discriminate. Qed.

Lemma state_in_static s :
  state_in s [STATIC_TARGET; BOTH_TARGETS] = true <->
  s = STATIC_TARGET \/ s = BOTH_TARGETS.
Proof. destruct s; cbn; split; intros H; intuition discriminate. Qed.

(** X18. For a positive window [w], [get_motion_status] reports motion
    exactly when the buffer holds at least [w] readings and one of the last
    [w] has state MOVING_TARGET or BOTH_TARGETS, and a static presence
    exactly when one of them has state STATIC_TARGET or BOTH_TARGETS; with
    fewer than [w] readings it reports neither. *)
Theorem motion_status_of_last_window (w : Z) (h : RadarHandler) :
  0 < w ->
  (fst (get_motion_status w h) = true <->
   w <= Z.of_nat (length (readings_buffer h)) /\
   exists r, In r (lastn (Z.to_nat w) (readings_buffer h)) /\
             (target_state r = MOVING_TARGET \/
              target_state r = BOTH_TARGETS)) /\
  (snd (get_motion_status w h) = true <->
   w <= Z.of_nat (length (readings_buffer h)) /\
   exists r, In r (lastn (Z.to_nat w) (readings_buffer h)) /\
             (target_state r = STATIC_TARGET \/
              target_state r = BOTH_TARGETS)).
Proof.
  intros Hw. unfold get_motion_status, tail_slice.
  replace (0 <? w) with true by (symmetry; apply Z.ltb_lt; exact Hw).
  destruct (Z.ltb_spec (Z.of_nat (length (readings_buffer h))) w) as [Hlt | Hge];
    cbn [fst snd].
  - split; (split; [discriminate | intros [Hle _]; lia]).
  - split; rewrite existsb_exists.
    + split.
      * intros (r & Hin & Hs). split; [exact Hge |]. exists r.
        split; [exact Hin | apply state_in_moving; exact Hs].
      * intros (_ & r & Hin & Hs). exists r.
        split; [exact Hin | apply state_in_moving; exact Hs].
    + split.
      * intros (r & Hin & Hs). split; [exact Hge |]. exists r.
        split; [exact Hin | apply state_in_static; exact Hs].
      * intros (_ & r & Hin & Hs). exists r.
        split; [exact Hin | apply state_in_static; exact Hs].
Qed.

Lemma motion_status_of_last_window_witness :
  get_motion_status 5
    (handler_with_states
       [NO_TARGET; MOVING_TARGET; NO_TARGET; BOTH_TARGETS; STATIC_TARGET]) =
  (true, true).
Proof.
  destruct (motion_status_of_last_window 5
              (handler_with_states
                 [NO_TARGET; MOVING_TARGET; NO_TARGET; BOTH_TARGETS;
                  STATIC_TARGET])) as [Hm Hs]; [lia |].
  reflexivity.
Defined.

(** X19. A window of 0 does not mean "no reading": because [buffer[-0:]]
    is the whole list, [get_motion_status(0)] and [get_average_distance(0)]
    look at every reading in the buffer, as a window of the length of the
    buffer does. *)
Theorem window_zero_spans_buffer (h : RadarHandler) :
  get_motion_status 0 h =
    get_motion_status (Z.of_nat (length (readings_buffer h))) h /\
  get_average_distance 0 h =
    get_average_distance (Z.of_nat (length (readings_buffer h))) h /\
  tail_slice 0 (readings_buffer h) = readings_buffer h.
Proof.
  assert (Htail : tail_slice (Z.of_nat (length (readings_buffer h)))
                    (readings_buffer h) = readings_buffer h).
  { unfold tail_slice.
    destruct (Z.ltb_spec 0 (Z.of_nat (length (readings_buffer h)))).
    - rewrite Nat2Z.id. apply lastn_all. lia.
    - destruct (readings_buffer h); [reflexivity | cbn [length] in *; lia]. }
  unfold get_motion_status, get_average_distance.
  rewrite Htail. rewrite Z.ltb_irrefl.
  replace (Z.of_nat (length (readings_buffer h)) <? 0) with false
    by (symmetry; apply Z.ltb_ge; lia).
  repeat split; reflexivity.
Qed.

Lemma fold_add_shift xs : forall a,
  fold_left Z.add xs a = a + fold_left Z.add xs 0.
Proof.
  induction xs as [| x xs IH]; intros a; cbn [fold_left]; [lia |].
  rewrite (IH (a + x)), (IH (0 + x)). lia.
Qed.

Lemma sum_bounds lo hi xs :
  Forall (fun x => lo <= x <= hi) xs ->
  lo * Z.of_nat (length xs) <= sum xs <= hi * Z.of_nat (length xs).
Proof.
  unfold sum. induction 1 as [| x xs Hx _ IH].
  - cbn. lia.
  - cbn [fold_left length]. rewrite fold_add_shift, Nat2Z.inj_succ. lia.
Qed.

Lemma np_mean_bounds lo hi xs :
  Forall (fun x => lo <= x <= hi) xs ->
  match np_mean xs with
  | Some m => (inject_Z lo <= m <= inject_Z hi)%Q
  | None => xs = []
  end.
Proof.
  intros Hall. unfold np_mean. destruct xs as [| x xs']; [reflexivity |].
  pose proof (sum_bounds lo hi (x :: xs') Hall) as Hsum.
  set (n := Z.of_nat (length (x :: xs'))) in *.
  assert (Hn : 0 < n) by (subst n; cbn [length]; lia).
  assert (HnQ : (0 < inject_Z n)%Q)
    by (change 0%Q with (inject_Z 0); rewrite <- Zlt_Qlt; exact Hn).
  split.
  - apply Qle_shift_div_l; [exact HnQ |].
    rewrite <- inject_Z_mult, <- Zle_Qle. lia.
  - apply Qle_shift_div_r; [exact HnQ |].
    rewrite <- inject_Z_mult, <- Zle_Qle. lia.
Qed.

Lemma Forall_tail_slice {A} (P : A -> Prop) w l :
  Forall P l -> Forall P (tail_slice w l).
Proof.
  intros H. unfold tail_slice. destruct (0 <? w).
  - apply Forall_lastn. exact H.
  - rewrite <- (firstn_skipn (Z.to_nat (- w)) l) in H.
    apply Forall_app in H. apply H.
Qed.

Lemma is_valid_detection_distance r :
  is_valid r = true -> 0 <= detection_distance r <= 600.
Proof.
  unfold is_valid. rewrite !andb_true_iff, !Z.leb_le. tauto.
Qed.

(** X20. On a handler that started fresh and went through any run of
    [read_frame] calls and operations, [get_average_distance] lies between
    0 and 600 for every window; it is [nan] only for a negative window that
    skips the whole non-empty buffer. *)
Theorem average_distance_within_range
    (rx : list bytes) (now : Z) (cs : list call) (w : Z) :
  let h := radar (snd (run_calls cs (RadarCalibrator_init rx now))) in
  match get_average_distance w h with
  | Some m => (0 <= m <= 600)%Q
  | None => w < 0 /\ Z.of_nat (length (readings_buffer h)) <= - w
  end.
Proof.
  cbv zeta.
  destruct (run_calls_buffer cs (RadarCalibrator_init rx now) [])
    as (_ & Hbuf & Hvalid); [reflexivity | reflexivity |].
  cbn [app] in Hbuf.
  set (h := radar (snd (run_calls cs (RadarCalibrator_init rx now)))) in *.
  assert (Hall : Forall (fun r => is_valid r = true) (readings_buffer h))
    by (rewrite Hbuf; apply Forall_lastn; exact Hvalid).
  unfold get_average_distance.
  destruct (readings_buffer h) as [| r0 buf] eqn:E.
  - split; discriminate.
  - assert (Hd : Forall (fun x => 0 <= x <= 600)
                   (map detection_distance (tail_slice w (r0 :: buf)))).
    { apply Forall_map. apply Forall_tail_slice.
      eapply Forall_impl; [| exact Hall].
      intros r Hr. apply is_valid_detection_distance. exact Hr. }
    pose proof (np_mean_bounds 0 600 _ Hd) as Hmean.
    destruct (np_mean _) as [m |]; [exact Hmean |].
    apply map_eq_nil in Hmean. unfold tail_slice in Hmean.
    destruct (Z.ltb_spec 0 w) as [Hpos | Hneg].
    + exfalso. apply (f_equal (@length RadarReading)) in Hmean.
      rewrite lastn_length in Hmean. cbn [length] in Hmean. lia.
    + apply (f_equal (@length RadarReading)) in Hmean.
      rewrite length_skipn in Hmean. cbn [length] in Hmean |- *. lia.
Qed.

(** ** More on the sweep *)

Lemma fold_strict_update_cases trace best :
  fold_left strict_update trace best = best \/
  (In (fold_left strict_update trace best) trace /\
   (snd best < snd (fold_left strict_update trace best))%Q).
Proof.
  destruct (Exists_dec (fun p => (snd best < snd p)%Q) trace) as [Hex | Hno].
  - intros p. destruct (Qlt_le_dec (snd best) (snd p)); [left | right]; auto.
    apply Qle_not_lt. assumption.
  - right.
    destruct (fold_strict_update_first_maximum trace best Hex)
      as ((pre & post & Ht & _) & Hlt).
    split; [| exact Hlt]. rewrite Ht at 2. apply in_elt.
  - left. apply fold_strict_update_keeps.
    apply Forall_forall. intros p Hp. apply Qnot_lt_le. intros Hlt.
    apply Hno. apply Exists_exists. exists p. auto.
Qed.

(** X21. For a positive sample count [find_optimal_sensitivity] returns
    either the initial pair [(0, 0)] or one of the tested sensitivities,
    between [lo] and [hi] and a multiple of 5 above [lo], together with a
    rate above 0; the rate it returns is never above 1. *)
Theorem sweep_result_within_range
    (distance : Q) (lo hi samples : Z) (c : RadarCalibrator) :
  0 < samples ->
  exists s rate c',
    find_optimal_sensitivity distance lo hi samples c = (Ok (s, rate), c') /\
    (0 <= rate <= 1)%Q /\
    ((s, rate) = (0, 0%Q) \/
     ((0 < rate)%Q /\ lo <= s <= hi /\ (s - lo) mod 5 = 0)).
Proof.
  intros Hs.
  destruct (sweep_trace_run samples (range_step5 lo (hi + 1)) c Hs)
    as (trace & c' & Ht & Hfst & Hrates).
  unfold find_optimal_sensitivity. rewrite sweep_as_fold, Ht.
  destruct (fold_left strict_update trace (0, 0%Q)) as [s rate] eqn:Hfold.
  exists s, rate, c'. split; [reflexivity |].
  destruct (fold_strict_update_cases trace (0, 0%Q)) as [Hkeep | [Hin Hlt]];
    rewrite Hfold in *.
  - injection Hkeep as -> ->. split; [| left; reflexivity].
    split; [apply Qle_refl | discriminate].
  - cbn [snd] in Hlt.
    rewrite Forall_forall in Hrates. destruct (Hrates _ Hin) as (d & Hd & Hr).
    cbn [snd] in Hr.
    assert (HsQ : (0 < inject_Z samples)%Q)
      by (change 0%Q with (inject_Z 0); rewrite <- Zlt_Qlt; exact Hs).
    split.
    + split; [apply Qlt_le_weak; exact Hlt |].
      rewrite Hr. apply Qle_shift_div_r; [exact HsQ |].
      rewrite Qmult_1_l, <- Zle_Qle. lia.
    + right. split; [exact Hlt |].
      assert (Hs_in : In s (range_step5 lo (hi + 1)))
        by (rewrite <- Hfst; apply (in_map fst) in Hin; exact Hin).
      apply range_step5_spec in Hs_in. destruct Hs_in as (k & -> & Hle).
      split; [lia |].
      replace (lo + 5 * Z.of_nat k - lo) with (Z.of_nat k * 5) by lia.
      apply Z.mod_mul. lia.
Qed.

Lemma sweep_result_within_range_witness :
  exists s rate c',
    find_optimal_sensitivity 100 0 10 2 tie_calibrator = (Ok (s, rate), c') /\
    (0 <= rate <= 1)%Q.
Proof.
  destruct (sweep_result_within_range 100%Q 0 10 2 tie_calibrator)
    as (s & rate & c' & Hfind & Hrate & _); [lia |].
  exists s, rate, c'. split; [exact Hfind | exact Hrate].
Defined.

Lemma after_read_port h : serial_rx (after_read h) = tl (serial_rx h).
Proof.
  unfold after_read. destruct (serial_rx h) eqn:E; [rewrite E |]; reflexivity.
Qed.

Lemma read_frame_port h :
  serial_rx (snd (read_frame h)) = tl (serial_rx h).
Proof.
  rewrite read_frame_run. pose proof (after_read_port h) as Hport.
  destruct (next_decoded h) as [[reading |] | e]; try exact Hport.
  destruct (is_valid reading); exact Hport.
Qed.

Lemma skipn_tl {A} n (l : list A) : skipn n (tl l) = skipn (S n) l.
Proof. destruct l; [rewrite skipn_nil; reflexivity | reflexivity]. Qed.

Lemma count_detections_port n : forall d c,
  serial_rx (radar (snd (count_detections n d c))) =
    skipn n (serial_rx (radar c)).
Proof.
  induction n as [| n IH]; intros d c.
  - reflexivity.
  - destruct (read_frame_never_raises (radar c)) as (r & h' & Hread).
    pose proof (read_frame_port (radar c)) as Hrx.
    rewrite Hread in Hrx. cbn [snd] in Hrx.
    cbn [count_detections]. unfold bind, on_radar. rewrite Hread.
    unfold sleep, modify. cbn beta iota.
    match goal with |- context [count_detections n ?d1 ?c1] =>
      rewrite (IH d1 c1) end.
    cbn [radar set_clock serial_rx].
    rewrite Hrx, skipn_tl. reflexivity.
Qed.

Lemma measure_rate_port samples s c :
  serial_rx (radar (snd (measure_rate samples s c))) =
    skipn (Z.to_nat samples) (serial_rx (radar c)).
Proof.
  unfold measure_rate, bind.
  rewrite !configure_sensitivity_255_run.
  pose proof (count_detections_port (Z.to_nat samples) 0 c) as Hport.
  destruct (count_detections (Z.to_nat samples) 0 c) as [[d | e] c1];
    [| exact Hport].
  unfold lift_result. exact Hport.
Qed.

Lemma sweep_port samples ss : forall best c,
  0 < samples ->
  serial_rx (radar (snd (sweep samples ss best c))) =
    skipn (Z.to_nat samples * length ss) (serial_rx (radar c)).
Proof.
  induction ss as [| s ss IH]; intros best c Hs.
  - cbn [sweep length]. unfold ret. cbn [snd].
    rewrite Nat.mul_0_r. reflexivity.
  - cbn [sweep length]. unfold bind.
    destruct (measure_rate_run samples s c Hs) as (d & c1 & Hm & _).
    pose proof (measure_rate_port samples s c) as Hrx.
    rewrite Hm in *. cbn [snd] in Hrx.
    assert (Hnext : forall best',
      serial_rx (radar (snd (sweep samples ss best' c1))) =
        skipn (Z.to_nat samples * S (length ss)) (serial_rx (radar c))).
    { intros best'. rewrite (IH best' c1 Hs), Hrx, skipn_skipn.
      f_equal. lia. }
    destruct (Qgtb _ _); apply Hnext.
Qed.

(** X22. For a positive sample count the sweep takes exactly [samples]
    answers from the port for each tested sensitivity, whatever the
    answers are: afterwards the port is [samples] times the number of
    tested sensitivities further on. *)
Theorem sweep_takes_samples_per_sensitivity
    (distance : Q) (lo hi samples : Z) (c : RadarCalibrator) :
  0 < samples ->
  let tested := length (range_step5 lo (hi + 1)) in
  serial_rx (radar (snd (find_optimal_sensitivity distance lo hi samples c))) =
    skipn (Z.to_nat samples * tested) (serial_rx (radar c)).
Proof.
  intros Hs. cbv zeta. unfold find_optimal_sensitivity.
  apply sweep_port. exact Hs.
Qed.

Lemma sweep_takes_samples_per_sensitivity_witness :
  serial_rx (radar (snd (find_optimal_sensitivity 100 0 10 2
                           (RadarCalibrator_init synthetic_responder 0)))) =
    skipn 6 synthetic_responder.
Proof.
  apply (sweep_takes_samples_per_sensitivity 100%Q 0 10 2
           (RadarCalibrator_init synthetic_responder 0)).
  lia.
Defined.

(** ** The peak search of the visualizer *)

Lemma fold_max_spec xs : forall a,
  a <= fold_left Z.max xs a /\
  Forall (fun x => x <= fold_left Z.max xs a) xs /\
  (fold_left Z.max xs a = a \/ In (fold_left Z.max xs a) xs).
Proof.
  induction xs as [| x xs IH]; intros a; cbn [fold_left].
  - split; [lia |]. split; [constructor | left; reflexivity].
  - destruct (IH (Z.max a x)) as (Hge & Hall & Hin).
    split; [lia |]. split.
    + constructor; [lia | exact Hall].
    + destruct Hin as [Heq | Hin]; [| right; right; exact Hin].
      rewrite Heq. destruct (Z.max_spec a x) as [[_ ->] | [_ ->]];
        [right; left; reflexivity | left; reflexivity].
Qed.

Lemma py_index_spec v xs :
  match py_index v xs with
  | Some i => nth_error xs i = Some v /\
              forall j x, (j < i)%nat -> nth_error xs j = Some x -> x <> v
  | None => ~ In v xs
  end.
Proof.
  induction xs as [| x xs IH]; cbn [py_index]; [intros [] |].
  destruct (Z.eqb_spec x v) as [-> | Hne].
  - split; [reflexivity | intros j y Hj; lia].
  - destruct (py_index v xs) as [i |].
    + destruct IH as [Hnth Hfirst]. split; [exact Hnth |].
      intros [| j] y Hj Hy; cbn [nth_error] in Hy.
      * injection Hy as <-. exact Hne.
      * apply (Hfirst j y); [lia | exact Hy].
    + intros [Heq | Hin]; [congruence | exact (IH Hin)].
Qed.

(** X23. [find_peak_motion] raises on an empty list; on a non-empty list
    whose entries are all at most 30 it returns [(None, None)]; otherwise it
    returns the greatest entry, which is above 30, and 0.75 times the first
    position at which that entry occurs. *)
Theorem find_peak_motion_spec (moving_data : list Z) :
  match find_peak_motion moving_data with
  | None => moving_data = []
  | Some None =>
    moving_data <> [] /\ Forall (fun x => x <= MOTION_THRESHOLD) moving_data
  | Some (Some (distance, energy)) =>
    MOTION_THRESHOLD < energy /\
    Forall (fun x => x <= energy) moving_data /\
    exists i,
      nth_error moving_data i = Some energy /\
      (forall j x, (j < i)%nat -> nth_error moving_data j = Some x ->
                   x < energy) /\
      distance = (inject_Z (Z.of_nat i) * (3 # 4))%Q
  end.
Proof.
  unfold find_peak_motion.
  destruct moving_data as [| x xs]; [reflexivity |].
  cbn [py_max].
  destruct (fold_max_spec xs x) as (Hge & Hall & Hin).
  set (m := fold_left Z.max xs x) in *.
  assert (Hmax : Forall (fun y => y <= m) (x :: xs))
    by (constructor; assumption).
  assert (Hmem : In m (x :: xs))
    by (destruct Hin as [-> | Hin]; [left; reflexivity | right; exact Hin]).
  destruct (Z.ltb_spec MOTION_THRESHOLD m) as [Hgt | Hle].
  - pose proof (py_index_spec m (x :: xs)) as Hidx.
    destruct (py_index m (x :: xs)) as [i |]; [| contradiction].
    destruct Hidx as [Hnth Hfirst].
    split; [exact Hgt |]. split; [exact Hmax |].
    exists i. split; [exact Hnth |]. split; [| reflexivity].
    intros j y Hj Hy.
    assert (y <= m)
      by (rewrite Forall_forall in Hmax; apply Hmax;
          eapply nth_error_In; exact Hy).
    pose proof (Hfirst j y Hj Hy). lia.
  - split; [discriminate |].
    eapply Forall_impl; [| exact Hmax]. intros y Hy. cbn beta in Hy. lia.
Qed.

(** X24. In engineering mode a frame that carries the two gate counts and
    not a single gate energy decodes to a reading with empty gate lists;
    [find_peak_motion], which the visualizer calls on the moving gates of
    every such reading, raises [ValueError] on it. *)
Theorem empty_gates_break_peak_search
    (now : Z) (line : bytes) (r : RadarReading) :
  length line = 25%nat ->
  decode_reading true now line = Ok (Some r) ->
  exists e,
    engineering_data r = Some e /\
    moving_energy_gates e = [] /\
    static_energy_gates e = [] /\
    find_peak_motion (moving_energy_gates e) = None.
Proof.
  intros Hlen. unfold decode_reading.
  destruct (negb _); [discriminate |].
  assert (Htd : length (slice 8 (length line - 6) line) = 11%nat)
    by (rewrite target_data_length, Hlen; reflexivity).
  set (target_data := slice 8 (length line - 6) line) in *.
  rewrite Htd. cbn [Nat.ltb Nat.leb andb].
  assert (Htwo : length (skipn 9 target_data) = 2%nat)
    by (rewrite length_skipn, Htd; reflexivity).
  destruct (skipn 9 target_data) as [| mm [| ms [| b l]]];
    try discriminate Htwo.
  rewrite parse_engineering_run.
  destruct (index _ 0); [| discriminate].
  intros [= <-]. eexists. split; [reflexivity |].
  cbn [moving_energy_gates static_energy_gates].
  rewrite skipn_nil, !firstn_nil. repeat split; reflexivity.
Qed.

Lemma empty_gates_break_peak_search_witness :
  exists r e,
    fst (read_frame (handler_reading true no_gate_frame)) = Ok (Some r) /\
    engineering_data r = Some e /\
    find_peak_motion (moving_energy_gates e) = None.
Proof.
  destruct (empty_gates_break_peak_search 0 no_gate_frame
              {| timestamp := 0; target_state := MOVING_TARGET;
                 moving_target_distance := 100; moving_target_energy := 50;
                 static_target_distance := 0; static_target_energy := 0;
                 detection_distance := 100;
                 engineering_data :=
                   Some {| max_moving_distance_gate := 8;
                           max_static_distance_gate := 8;
                           moving_energy_gates := [];
                           static_energy_gates := [] |} |})
    as (e & He & _ & _ & Hpeak); [reflexivity | vm_compute; reflexivity |].
  eexists. exists e. split; [vm_compute; reflexivity |].
  split; [exact He | exact Hpeak].
Defined.

(** ** The interpretation of gate energies *)

Lemma py_max_spec xs :
  match py_max xs with
  | None => xs = []
  | Some m => In m xs /\ Forall (fun x => x <= m) xs
  end.
Proof.
  destruct xs as [| x xs]; [reflexivity |]. cbn [py_max].
  destruct (fold_max_spec xs x) as (Hge & Hall & Hin). split.
  - destruct Hin as [-> | Hin]; [left; reflexivity | right; exact Hin].
  - constructor; assumption.
Qed.

Lemma filter_none {A} (f : A -> bool) l :
  Forall (fun x => f x = false) l -> filter f l = [].
Proof.
  induction 1 as [| x l Hx _ IH]; [reflexivity |].
  cbn [filter]. rewrite Hx. exact IH.
Qed.

Module EnggModeDemoFacts.
Import Ascii String EnggModeDemo.
Local Open Scope string_scope.

Lemma targets_above_none threshold energies :
  Forall (fun x => x <= threshold) energies ->
  targets_above threshold energies = [].
Proof.
  intros Hall. unfold targets_above. rewrite filter_none; [reflexivity |].
  apply Forall_forall. intros [i e] Hin. cbn [snd].
  apply in_combine_r in Hin. rewrite Forall_forall in Hall.
  apply Z.ltb_ge. apply Hall. exact Hin.
Qed.

Lemma concat_head c s (rest : list string) :
  exists t, concat newline (String c s :: rest) = String c t.
Proof.
  destruct rest as [| l rest]; cbn [concat]; [eexists; reflexivity |].
  cbn [append]. eexists. reflexivity.
Qed.

(** X25. [interpret_measurements] raises exactly when one of the two lists
    is empty; otherwise it returns a text, which is "No significant targets
    detected" exactly when no moving energy is above 30 and no static
    energy is above 40. *)
Theorem interpret_measurements_spec (moving_energies static_energies : list Z) :
  match interpret_measurements moving_energies static_energies with
  | None => moving_energies = [] \/ static_energies = []
  | Some text =>
    moving_energies <> [] /\ static_energies <> [] /\
    (text = "No significant targets detected" <->
     Forall (fun e => e <= 30) moving_energies /\
     Forall (fun e => e <= 40) static_energies)
  end.
Proof.
  unfold interpret_measurements.
  pose proof (py_max_spec moving_energies) as Hm.
  destruct (py_max moving_energies) as [mp |]; [| left; exact Hm].
  pose proof (py_max_spec static_energies) as Hs.
  destruct (py_max static_energies) as [sp |]; [| right; exact Hs].
  destruct Hm as [Hmin Hmall]. destruct Hs as [Hsin Hsall].
  pose proof (py_index_spec mp moving_energies) as Hmi.
  destruct (py_index mp moving_energies) as [mi |]; [| contradiction].
  pose proof (py_index_spec sp static_energies) as Hsi.
  destruct (py_index sp static_energies) as [si |]; [| contradiction].
  split; [intros ->; contradiction |]. split; [intros ->; contradiction |].
  unfold MOVEMENT_THRESHOLD, STATIC_THRESHOLD.
  destruct (Z.ltb_spec 30 mp) as [Hmp | Hmp].
  - split.
    + intros Htext. exfalso. revert Htext. cbn [app].
      destruct (40 <? sp)%Z; destruct (1 <? _)%nat; destruct (1 <? _)%nat;
        cbn [app append];
        match goal with |- concat newline (String ?c ?s :: ?rest) = _ -> _ =>
          destruct (concat_head c s rest) as (t & ->) end;
        discriminate.
    + intros [Hall _]. exfalso. rewrite Forall_forall in Hall.
      specialize (Hall mp Hmin). lia.
  - assert (Hnone : targets_above 30 moving_energies = []).
    { apply targets_above_none.
      eapply Forall_impl; [| exact Hmall]. intros e He. cbn beta in He. lia. }
    rewrite Hnone. change (1 <? List.length (@nil nat))%nat with false.
    cbn iota.
    destruct (Z.ltb_spec 40 sp) as [Hsp | Hsp].
    + split.
      * intros Htext. exfalso. revert Htext. cbn [app].
        destruct (1 <? _)%nat; cbn [app append];
          match goal with |- concat newline (String ?c ?s :: ?rest) = _ -> _ =>
            destruct (concat_head c s rest) as (t & ->) end;
          discriminate.
      * intros [_ Hall]. exfalso. rewrite Forall_forall in Hall.
        specialize (Hall sp Hsin). lia.
    + assert (Hnone' : targets_above 40 static_energies = []).
      { apply targets_above_none.
        eapply Forall_impl; [| exact Hsall]. intros e He. cbn beta in He. lia. }
      rewrite Hnone'. change (1 <? List.length (@nil nat))%nat with false.
      cbn iota.
      split; [intros _ | reflexivity].
      split; (eapply Forall_impl; [| eassumption]); intros e He;
        cbn beta in He; lia.
Qed.

End EnggModeDemoFacts.
